(** * The recommendation subsystem of the campaign manager ([ml_model.py])

    A shallow embedding of [build_training_data], [train_and_save],
    [load_model] and [recommend], and the properties of the specification
    that can be settled on it.

    - Python dictionaries are finite maps ([gmap]) with string keys.
    - An exception is a value of [exn] carried by [result].
    - The model file at [MODEL_PATH] is the only piece of mutable state; it is
      threaded explicitly as a [disk], which also tells whether opening the
      path or writing to it fails.
    - scikit-learn and [pickle] are libraries, not code of the repository:
      they are an interface ([Sklearn], [Pickle]) over which every theorem is
      quantified.  A small executable instance ([Reference]) inhabits the
      interface and is used for concrete runs. *)

From stdpp Require Import gmap strings list fin_maps sorting pretty.
From Ceres Require Import Ceres.
From Stdlib Require Import ZArith Ascii.
From Stdlib.Strings Require String.
From Stdlib.Strings Require Import Byte.

Local Open Scope string_scope.

(** ** Python values and exceptions *)

(** The values stored in campaign records and feature dictionaries: integers
    (the engagement metrics) and strings (ids, products, interest tags). *)
Inductive value :=
  | VInt (z : Z)
  | VStr (s : string).

#[global] Instance value_eq_dec : EqDecision value.
Proof. solve_decision. Defined.

Inductive exn :=
  | KeyError (key : string)        (* c["customer_id"], c["product"] *)
  | ValueError (msg : string)      (* raised inside scikit-learn *)
  | OverflowError                  (* an integer too large for a float *)
  | OSError                        (* open(MODEL_PATH, "wb"), or the write into the file *)
  | UnpicklingError                (* pickle.load (EOFError and the like too), or unpacking its result *)
  | IndexError.                    (* clf.predict(X_vec)[0] *)

Inductive result (A : Type) :=
  | Ok (a : A)
  | Raise (e : exn).
Arguments Ok {A} a.
Arguments Raise {A} e.

#[global] Instance result_ret : MRet result := fun A a => Ok a.
#[global] Instance result_bind : MBind result := fun A B f m =>
  match m with
  | Ok a => f a
  | Raise e => Raise e
  end.

(** Python integers are unbounded, floats are IEEE doubles.  The conversion
    of an integer to a float, and the true division of two integers, round
    to the nearest double and raise [OverflowError] when that is beyond the
    largest one: from [2^1024 - 2^970] on in absolute value. *)
Definition float_limit : Z := (2 ^ 1024 - 2 ^ 970)%Z.
Arguments float_limit : simpl never.

(** ** Records *)

(** [customers]: customer id to customer record; the record's fields (name,
    interest, created_at) are strings. *)
Abbreviation customer := (gmap string string).
Abbreviation customers_t := (gmap string customer).

(** A campaign outcome, and a feature dictionary. *)
Abbreviation campaign := (gmap string value).
Abbreviation features := (gmap string value).

(** [c[key]] *)
Definition getitem (c : campaign) (key : string) : result value :=
  match c !! key with
  | Some v => Ok v
  | None => Raise (KeyError key)
  end.

(** The record stored under [cust_id], if any.  The keys of [customers] are
    strings, so an integer id never resolves. *)
Definition customer_of (customers : customers_t) (cust_id : value) : option customer :=
  match cust_id with
  | VStr s => customers !! s
  | VInt _ => None
  end.

(** [customers.get(cust_id, {})] *)
Definition customers_get (customers : customers_t) (cust_id : value) : customer :=
  default ∅ (customer_of customers cust_id).

(** [cust.get("interest", "unknown")] *)
Definition interest_of (cust : customer) : string :=
  default "unknown" (cust !! "interest").

(** The dictionary literal of lines 31-36 and 103-108. *)
Definition feature_dict (interest : string) (open_rate click_rate conversions : value) : features :=
  <["interest" := VStr interest]>
    (<["open_rate" := open_rate]>
       (<["click_rate" := click_rate]>
          (<["conversions" := conversions]> ∅))).

(** The body of the loop of [build_training_data] once the customer record is
    resolved (lines 24-36): none of it can raise. *)
Definition build_features (cust : customer) (c : campaign) : features :=
  let interest := interest_of cust in
  let open_rate := default (VInt 0) (c !! "open_rate") in
  let click_rate := default (VInt 0) (c !! "click_rate") in
  let conversions := default (VInt 0) (c !! "conversions") in
  feature_dict interest open_rate click_rate conversions.

(** ** [build_training_data] *)

(** Lines 10-41.  The loop runs over [campaigns] in order and stops at the
    first lookup that raises. *)
Fixpoint build_training_data (customers : customers_t) (campaigns : list campaign)
  : result (list features * list value) :=
  match campaigns with
  | [] => Ok ([], [])
  | c :: rest =>
      cust_id ← getitem c "customer_id";
      let cust := customers_get customers cust_id in
      let feats := build_features cust c in
      product ← getitem c "product";
      '(X, y) ← build_training_data customers rest;
      Ok (feats :: X, product :: y)
  end.

(** ** The libraries *)

(** What the module uses of scikit-learn.  [transform] and [predict] work row
    by row, so the interface gives the row functions.  Each call can raise:
    the vectorizer converts every number to a float ([OverflowError] on an
    integer beyond the floats), and [predict] rejects a row that does not fit
    the classifier.  The law is what scikit-learn documents of [predict]: it
    answers with elements of [classes_]. *)
Class Sklearn := {
  Vectorizer : Type;
  Classifier : Type;
  Row : Type;
  (** [vec = DictVectorizer(sparse=False)] followed by [vec.fit_transform(X)]:
      the fitted vectorizer and the rows *)
  fit_transform : list features → result (Vectorizer * list Row);
  (** one row of [vec.transform] *)
  transform_row : Vectorizer → features → result Row;
  (** [LogisticRegression(max_iter=...).fit] *)
  clf_fit : nat → list Row → list value → result Classifier;
  (** one row of [clf.predict] *)
  predict_row : Classifier → Row → result value;
  (** [clf.classes_], the labels seen by [fit] *)
  classes_ : Classifier → list value;
  predict_classes clf row l :
    predict_row clf row = Ok l → l ∈ classes_ clf;
}.

Definition transform `{Sklearn} (vec : Vectorizer) (X : list features) : result (list Row) :=
  mapM (transform_row vec) X.

Definition predict `{Sklearn} (clf : Classifier) (X_vec : list Row) : result (list value) :=
  mapM (predict_row clf) X_vec.

(** [pickle.dumps] and [pickle.loads] at the type of the persisted object. *)
Class Pickle (M : Type) := {
  pickle_dumps : M → list byte;
  pickle_loads : list byte → result M;
}.

(** ** The model file *)

(** How the path answers to a save. *)
Inductive device :=
  | Writable                       (* it opens, and what is written reaches the file *)
  | OpenFails                      (* opening it for writing raises [OSError] *)
  | WriteFails (accepted : nat).   (* it opens; the write raises [OSError], and at most
                                      [accepted] bytes have reached the file by then *)

(** [file] is the content found at [MODEL_PATH] ([None]: no such file). *)
Record disk := Disk {
  file : option (list byte);
  dev : device;
}.

(** A save to the path raises. *)
Definition read_only (d : disk) : bool :=
  match dev d with
  | Writable => false
  | OpenFails | WriteFails _ => true
  end.

(** [open(MODEL_PATH, "wb")]: mode [w] creates the file or truncates it. *)
Definition open_wb (d : disk) : result disk :=
  match dev d with
  | OpenFails => Raise OSError
  | Writable | WriteFails _ => Ok {| file := Some []; dev := dev d |}
  end.

(** [f.write(bs)] on the file opened above, up to the closing of the file at
    the end of the [with] block: whether it raises, and the disk it leaves. *)
Definition write_bytes (d : disk) (bs : list byte) : result unit * disk :=
  match dev d with
  | Writable =>
      (Ok tt, {| file := Some (default [] (file d) ++ bs)%list; dev := dev d |})
  | OpenFails => (Raise OSError, d)
  | WriteFails accepted =>
      (Raise OSError,
       {| file := Some (default [] (file d) ++ take accepted bs)%list; dev := dev d |})
  end.

(** The fallback table of [recommend] (lines 83-88). *)
Definition mapping : gmap string string :=
  <["electronics" := "Wireless Headphones"]>
    (<["gadgets" := "Smartwatch"]>
       (<["computers" := "Laptop"]>
          (<["music" := "Bluetooth Speaker"]> ∅))).

(** [str.lower] on the ASCII letters.  A string is its UTF-8 bytes; bytes
    above 127 are left alone.  Python also lowers letters outside ASCII, but
    the only one that lowers to an ASCII letter is the Kelvin sign (to [k]),
    and no key of [mapping] has a [k]: the lookup below is not affected. *)
Definition lower_ascii (a : ascii) : ascii :=
  let n := nat_of_ascii a in
  if (65 <=? n)%nat && (n <=? 90)%nat then ascii_of_nat (n + 32) else a.

Fixpoint lower (s : string) : string :=
  match s with
  | EmptyString => EmptyString
  | String a s' => String (lower_ascii a) (lower s')
  end.

(** The list comprehension of line 94. *)
Fixpoint recent_of (campaigns : list campaign) (customer_id : value) : result (list campaign) :=
  match campaigns with
  | [] => Ok []
  | c :: rest =>
      cid ← getitem c "customer_id";
      recent ← recent_of rest customer_id;
      Ok (if decide (cid = customer_id) then c :: recent else recent)
  end.

Section ml_model.
Context {SK : Sklearn}.
Abbreviation Model := (Vectorizer * Classifier)%type.
Context {PK : Pickle Model}.

(** The [with] block of lines 57-58: whether it raises, and the disk it
    leaves.  When [open] raises nothing has changed; when the write raises
    the file has been truncated by [open] already. *)
Definition dump_model (m : Model) (d : disk) : result unit * disk :=
  match open_wb d with
  | Raise e => (Raise e, d)
  | Ok d1 => write_bytes d1 (pickle_dumps m)
  end.

(** The same block stopped when [k] bytes of the pickle have reached the
    file. *)
Definition dump_model_interrupted (k : nat) (m : Model) (d : disk) : result disk :=
  d1 ← open_wb d;
  let '(r, d2) := write_bytes d1 (take k (pickle_dumps m)) in
  _ ← r;
  Ok d2.

(** [train_and_save] (lines 44-60): the result and the disk it leaves.  No
    exception is caught. *)
Definition train_and_save (customers : customers_t) (campaigns : list campaign) (d : disk)
  : result (option Model) * disk :=
  match build_training_data customers campaigns with
  | Raise e => (Raise e, d)
  | Ok (X, y) =>
      if (length X <? 5)%nat then (Ok None, d)
      else
        match fit_transform X with
        | Raise e => (Raise e, d)
        | Ok (vec, X_vec) =>
            match clf_fit 500 X_vec y with
            | Raise e => (Raise e, d)
            | Ok clf =>
                match dump_model (vec, clf) d with
                | (Raise e, d') => (Raise e, d')
                | (Ok _, d') => (Ok (Some (vec, clf)), d')
                end
            end
        end
  end.

(** [load_model] (lines 63-68): [None] when there is no file; otherwise the
    unpickled pair, or the exception of [pickle.load]. *)
Definition load_model (d : disk) : result (option Model) :=
  match file d with
  | None => Ok None
  | Some b => m ← pickle_loads b; Ok (Some m)
  end.

(** The feature dictionary of lines 94-108. *)
Definition recommend_features (interest : string) (recent : list campaign) : features :=
  match last recent with
  | Some l =>
      feature_dict interest
        (default (VInt 0) (l !! "open_rate"))
        (default (VInt 0) (l !! "click_rate"))
        (default (VInt 0) (l !! "conversions"))
  | None => feature_dict interest (VInt 0) (VInt 0) (VInt 0)
  end.

(** [recommend] (lines 71-112). *)
Definition recommend (customers : customers_t) (campaigns : list campaign)
    (customer_id : value) (d : disk) : result value :=
  model ← load_model d;
  let cust := customers_get customers customer_id in
  let interest := interest_of cust in
  match model with
  | None =>
      Ok (VStr (default "Wireless Headphones" (mapping !! lower interest)))
  | Some (vec, clf) =>
      recent ← recent_of campaigns customer_id;
      let feats := [recommend_features interest recent] in
      X_vec ← transform vec feats;
      preds ← predict clf X_vec;
      match preds !! 0%nat with
      | Some pred => Ok pred
      | None => Raise IndexError
      end
  end.

End ml_model.

(** ** An executable instance of the libraries

    [DictVectorizer] is modelled as scikit-learn documents it: a string
    value [s] under key [k] becomes the indicator feature [k=s], a number
    keeps its key and is converted to a float, and the feature names are
    sorted.  The classifier is a stand-in (nearest training row) for the
    numerical fit of [LogisticRegression]; it keeps what the module can
    observe of [fit] without arithmetic on floats: a label list with fewer
    than two classes is rejected with [ValueError], and [classes_] are the
    labels.  Serialisation is to S-expressions. *)
Module Reference.

Definition feature_name (k : string) (v : value) : string :=
  match v with
  | VStr s => k +:+ "=" +:+ s
  | VInt _ => k
  end.

Definition feature_value (v : value) : Z :=
  match v with
  | VStr _ => 1
  | VInt z => z
  end.

Definition names_of (f : features) : list string :=
  (fun kv => feature_name kv.1 kv.2) <$> map_to_list f.

Definition string_le (a b : string) : Prop := String.leb a b = true.

#[local] Instance string_le_dec : RelDecision string_le.
Proof. intros a b. unfold string_le. solve_decision. Defined.

Definition fit_names (X : list features) : list string :=
  merge_sort string_le (remove_dups (concat (names_of <$> X))).

(** The entries of [f] under the feature names [vec], before the conversion
    to floats. *)
Definition dense (vec : list string) (f : features) : list Z :=
  (fun name =>
     foldr (fun kv acc =>
              if decide (feature_name kv.1 kv.2 = name) then feature_value kv.2 else acc)
           0%Z (map_to_list f)) <$> vec.

(** [float(z)] *)
Definition to_float (z : Z) : result Z :=
  if (Z.abs z <? float_limit)%Z then Ok z else Raise OverflowError.

Definition row_of (vec : list string) (f : features) : result (list Z) :=
  mapM to_float (dense vec f).

Definition fit_rows (X : list features) : result (list string * list (list Z)) :=
  rows ← mapM (row_of (fit_names X)) X;
  Ok (fit_names X, rows).

Definition dist2 (a b : list Z) : Z :=
  foldr Z.add 0%Z (zip_with (fun x y => (x - y) * (x - y))%Z a b).

Definition nearest (samples : list (list Z * value)) (v : list Z) : result value :=
  match samples with
  | [] => Raise (ValueError "This LogisticRegression instance is not fitted yet")
  | (r0, l0) :: rest =>
      Ok (snd (foldl (fun best s =>
                        if (dist2 s.1 v <? best.1)%Z then (dist2 s.1 v, s.2) else best)
                     (dist2 r0 v, l0) rest))
  end.

Definition fit_samples (max_iter : nat) (X : list (list Z)) (y : list value)
  : result (list (list Z * value)) :=
  if negb (length X =? length y)%nat
  then Raise (ValueError "Found input variables with inconsistent numbers of samples")
  else if (length (remove_dups y) <? 2)%nat
  then Raise (ValueError "This solver needs samples of at least 2 classes in the data")
  else Ok (zip X y).

(** [numpy.unique]: the distinct labels, sorted. *)
Definition value_le (a b : value) : Prop :=
  match a, b with
  | VInt x, VInt y => (x ≤ y)%Z
  | VInt _, VStr _ => True
  | VStr _, VInt _ => False
  | VStr s, VStr t => string_le s t
  end.

#[local] Instance value_le_dec : RelDecision value_le.
Proof. intros [x|s] [y|t]; cbn; apply _. Defined.

Definition labels (samples : list (list Z * value)) : list value :=
  merge_sort value_le (remove_dups (snd <$> samples)).

(** The instance; its law: the label of the nearest sample is a label of the
    samples. *)
Definition sklearn : Sklearn.
Proof.
  refine {| Vectorizer := list string;
            Classifier := list (list Z * value);
            Row := list Z;
            fit_transform := fit_rows;
            transform_row := row_of;
            clf_fit := fit_samples;
            predict_row := nearest;
            classes_ := labels |}.
  intros samples v l. unfold nearest, labels.
  destruct samples as [|[r0 l0] rest]; [discriminate|].
  intros [= <-]. rewrite merge_sort_Permutation. apply elem_of_remove_dups.
  cbn [fmap list_fmap snd].
  generalize (dist2 r0 v). intros d0. revert d0 l0.
  induction rest as [|s rest IH]; intros d0 l0; cbn [foldl]; [left|].
  destruct (dist2 s.1 v <? (d0, l0).1)%Z.
  - right. apply IH.
  - specialize (IH d0 l0). apply elem_of_cons in IH as [->|IH]; [left|].
    right. by right.
Defined.

#[local] Instance Serialize_value : Serialize value :=
  fun v => match v with
           | VInt z => [Atom "int"; to_sexp z]
           | VStr s => [Atom "str"; to_sexp s]
           end%sexp.

#[local] Instance Deserialize_value : Deserialize value :=
  Deser.match_con "value" [] [("int", Deser.con1_ VInt); ("str", Deser.con1_ VStr)].

Definition pickle : Pickle (list string * list (list Z * value)) := {|
  pickle_dumps := fun m => String.list_byte_of_string (to_string m);
  pickle_loads := fun b =>
    match from_string (String.string_of_list_byte b) with
    | inr m => Ok m
    | inl _ => Raise UnpicklingError
    end;
|}.

(** Sample data. *)
Definition cust (interest : string) : customer :=
  <["name" := "Unknown"]> (<["interest" := interest]> ∅).

Definition sent (customer_id product : string) (o c n : Z) : campaign :=
  <["customer_id" := VStr customer_id]>
    (<["product" := VStr product]>
       (<["open_rate" := VInt o]>
          (<["click_rate" := VInt c]>
             (<["conversions" := VInt n]> ∅)))).

Definition customers6 : customers_t :=
  <["c1" := cust "computers"]> (<["c2" := cust "computers"]>
  (<["c3" := cust "computers"]> (<["c4" := cust "computers"]>
  (<["c5" := cust "computers"]> (<["c6" := cust "computers"]> ∅))))).

(** Five campaigns for distinct customers, all for the same product. *)
Definition laptops5 : list campaign :=
  [sent "c1" "Laptop" 50 10 1; sent "c2" "Laptop" 40 20 2; sent "c3" "Laptop" 30 5 0;
   sent "c4" "Laptop" 60 30 3; sent "c5" "Laptop" 70 7 1].

(** Five campaigns with two products. *)
Definition mixed5 : list campaign :=
  [sent "c1" "Laptop" 50 10 1; sent "c2" "Smartwatch" 40 20 2; sent "c3" "Laptop" 30 5 0;
   sent "c4" "Smartwatch" 60 30 3; sent "c1" "Laptop" 70 7 1].

(** A campaign record without [customer_id]. *)
Definition orphan : campaign := <["product" := VStr "Laptop"]> ∅.

Definition no_file : disk := {| file := None; dev := Writable |}.
Definition locked : disk := {| file := None; dev := OpenFails |}.

(** A model file that is not a pickle: the empty file. *)
Definition corrupt : disk := {| file := Some []; dev := Writable |}.

(** The pair fitted on [mixed5], and a disk that holds it. *)
Definition vec5 : list string := fit_names (build_features (cust "computers") <$> mixed5).

Definition clf5 : list (list Z * value) :=
  zip (dense vec5 <$> (build_features (cust "computers") <$> mixed5))
      [VStr "Laptop"; VStr "Smartwatch"; VStr "Laptop"; VStr "Smartwatch"; VStr "Laptop"].

Definition trained : disk :=
  {| file := Some (pickle_dumps (Pickle := pickle) (vec5, clf5)); dev := Writable |}.

(** The same file on a device that fails after 3 bytes of a write. *)
Definition failing : disk :=
  {| file := Some (pickle_dumps (Pickle := pickle) (vec5, clf5)); dev := WriteFails 3 |}.

(** A campaign whose open rate is an integer beyond the floats. *)
Definition huge : campaign := sent "c2" "Smartwatch" (10 ^ 400) 20 2.

(** Another pair, to be saved over the first. *)
Definition vec1 : list string := ["open_rate"].
Definition clf1 : list (list Z * value) := [([10%Z], VStr "Laptop"); ([90%Z], VStr "Smartwatch")].

End Reference.

(** ** The web application ([app.py])

    The routes of [app.py] that read or change the stored data, as functions
    from a request, the session of the client that sends it and the store to
    a response (or an exception), the session and the store they leave.
    What a route takes from outside (the form, the clock, [uuid4], the random
    draws, the salt of the password hash, the encoding of the standard
    output) is part of the request.  Flask's
    [render_template] is taken as opaque: a rendered response is the name of
    its template. *)

(** [PRODUCTS] ([ml_model.py], line 8). *)
Definition PRODUCTS : list string :=
  ["Wireless Headphones"; "Smartwatch"; "Laptop"; "Bluetooth Speaker"].

Inductive app_exn :=
  | BadRequestKeyError (key : string)   (* request.form[key] *)
  | TypeError                           (* sum over a value that is not a number *)
  | UnicodeEncodeError                  (* print of a text that stdout cannot encode *)
  | Propagated (e : exn).               (* raised by ml_model, by c[key] or by a division *)

Inductive outcome (A : Type) :=
  | Return (a : A)
  | Abort (e : app_exn).
Arguments Return {A} a.
Arguments Abort {A} e.

Inductive response :=
  | Redirect (endpoint : string) (args : list (string * string))
  | Render (template : string).

(** [str.strip] and werkzeug's password hashing (the hash draws a salt). *)
Class Runtime := {
  strip : string → string;
  generate_password_hash : string → string → string;
  check_password_hash : string → string → bool;
}.

(** [session]: the logged-in user, if any, and the flashed messages. *)
Record session_t := Session {
  s_user : option string;
  s_flashes : list string;
}.

(** The module-level state of [app.py] (lines 15-25) and the model file. *)
Record store := Store {
  st_users : gmap string string;
  st_customers : customers_t;
  st_campaigns : list campaign;
  st_disk : disk;
}.

(** [r_stdout text]: the encoding of [sys.stdout] has every character of
    [text]. *)
Record request := Request {
  r_method : string;
  r_form : gmap string string;
  r_uuid4 : string;
  r_now : string;
  r_salt : string;
  r_rand1 : Z;
  r_rand2 : Z;
  r_rand3 : Z;
  r_stdout : string → bool;
}.

Definition set_users (u : gmap string string) (st : store) : store :=
  {| st_users := u; st_customers := st_customers st;
     st_campaigns := st_campaigns st; st_disk := st_disk st |}.

Definition set_customers (c : customers_t) (st : store) : store :=
  {| st_users := st_users st; st_customers := c;
     st_campaigns := st_campaigns st; st_disk := st_disk st |}.

Definition set_campaigns (l : list campaign) (st : store) : store :=
  {| st_users := st_users st; st_customers := st_customers st;
     st_campaigns := l; st_disk := st_disk st |}.

Definition set_disk (d : disk) (st : store) : store :=
  {| st_users := st_users st; st_customers := st_customers st;
     st_campaigns := st_campaigns st; st_disk := d |}.

(** [flash(msg)] *)
Definition flash (msg : string) (s : session_t) : session_t :=
  {| s_user := s_user s; s_flashes := s_flashes s ++ [msg] |}.

(** [require_login] (lines 34-38). *)
Definition require_login (s : session_t) : bool * session_t :=
  match s_user s with
  | None => (false, flash "Please login first." s)
  | Some _ => (true, s)
  end.

(** [print(text)]: the text is encoded for [sys.stdout], which raises when
    the encoding lacks one of its characters.  What is printed is not kept. *)
Definition print (req : request) (text : string) : outcome unit :=
  if r_stdout req text then Return tt else Abort UnicodeEncodeError.

(** [str(v)] *)
Definition str_of (v : value) : string :=
  match v with
  | VStr s => s
  | VInt z => pretty z
  end.

(** The text printed on line 199. *)
Definition predicted_message (customer_id : string) (predicted : value) : string :=
  "🤖 ML predicted product for " +:+ customer_id +:+ ": " +:+ str_of predicted.

(** The text printed on line 220 or on line 222: [if result] holds for the
    pair and fails for [None]. *)
Definition trained_message {M : Type} (result : option M) : string :=
  match result with
  | Some _ => "✅ ML model trained and saved"
  | None => "⚠️ Not enough data to train ML model yet"
  end.

(** [random.randint(a, b)] for [a <= b], as a function of the entropy [r]:
    every integer from [a] to [b] is drawn for some [r], and no other. *)
Definition randint (a b r : Z) : Z := (a + r `mod` (b - a + 1))%Z.

(** [fake_metrics] (lines 44-48). *)
Definition fake_metrics (r1 r2 r3 : Z) : Z * Z * Z :=
  let open_rate := randint 10 90 r1 in
  let click_rate := randint 1 (Z.max 1 open_rate) r2 in
  let conversions := randint 0 10 r3 in
  (open_rate, click_rate, conversions).

(** [sum(c.get(key, 0) for c in campaign_list)]: adding a string to the
    running integer raises [TypeError]. *)
Fixpoint sum_of (key : string) (campaign_list : list campaign) (acc : Z) : outcome Z :=
  match campaign_list with
  | [] => Return acc
  | c :: rest =>
      match default (VInt 0) (c !! key) with
      | VInt z => sum_of key rest (acc + z)%Z
      | VStr _ => Abort TypeError
      end
  end.

(** The value of [round(s / total, 1) if total else 0]: the rounded float is
    kept as the sum and the count it is computed from. *)
Inductive average :=
  | NoData
  | Mean (s : Z) (total : nat).

Definition average_of (s : Z) (total : nat) : average :=
  match total with
  | O => NoData
  | S _ => Mean s total
  end.

(** [s / total] raises [OverflowError] when the quotient is beyond the
    floats; nothing is divided when [total] is 0. *)
Definition quotient_overflows (s : Z) (total : nat) : bool :=
  match total with
  | O => false
  | S _ => (float_limit * Z.of_nat total <=? Z.abs s)%Z
  end.

(** [round(s / total, 1) if total else 0] *)
Definition rounded_average (s : Z) (total : nat) : outcome average :=
  if quotient_overflows s total then Abort (Propagated OverflowError)
  else Return (average_of s total).

(** [compute_stats] (lines 50-56). *)
Definition compute_stats (campaign_list : list campaign)
  : outcome (nat * nat * average * average * Z) :=
  let total := length campaign_list in
  let sent :=
    length (filter (fun c : campaign => c !! "status" = Some (VStr "Sent")) campaign_list) in
  match sum_of "open_rate" campaign_list 0 with
  | Abort e => Abort e
  | Return open_sum =>
      match rounded_average open_sum total with
      | Abort e => Abort e
      | Return avg_open =>
          match sum_of "click_rate" campaign_list 0 with
          | Abort e => Abort e
          | Return click_sum =>
              match rounded_average click_sum total with
              | Abort e => Abort e
              | Return avg_click =>
                  match sum_of "conversions" campaign_list 0 with
                  | Abort e => Abort e
                  | Return total_conv =>
                      Return (total, sent, avg_open, avg_click, total_conv)
                  end
              end
          end
      end
  end.

(** [[c for c in campaigns if c[key] != v]] (lines 157 and 235). *)
Fixpoint drop_where (key : string) (v : value) (l : list campaign) : result (list campaign) :=
  match l with
  | [] => Ok []
  | c :: rest =>
      x ← getitem c key;
      kept ← drop_where key v rest;
      Ok (if decide (x = v) then kept else c :: kept)
  end.

(** [name or "Unknown"] *)
Definition or_unknown (name : string) : string :=
  if decide (name = "") then "Unknown" else name.

(** The campaign record of lines 206-215. *)
Definition new_campaign (req : request) (customer_id : string) (product : value)
    (open_rate click_rate conversions : Z) : campaign :=
  <["id" := VStr (r_uuid4 req)]>
    (<["customer_id" := VStr customer_id]>
       (<["product" := product]>
          (<["status" := VStr "Sent"]>
             (<["created_at" := VStr (r_now req)]>
                (<["open_rate" := VInt open_rate]>
                   (<["click_rate" := VInt click_rate]>
                      (<["conversions" := VInt conversions]> ∅))))))).

Section app.
Context {RT : Runtime}.
Context {SK : Sklearn}.
Context {PK : Pickle (Vectorizer * Classifier)}.

(** [signup] (lines 66-84). *)
Definition signup (req : request) (s : session_t) (st : store)
  : outcome response * session_t * store :=
  if decide (r_method req = "POST") then
    match r_form req !! "username" with
    | None => (Abort (BadRequestKeyError "username"), s, st)
    | Some u =>
        let username := strip u in
        match r_form req !! "password" with
        | None => (Abort (BadRequestKeyError "password"), s, st)
        | Some password =>
            if decide (username = "") then
              (Return (Redirect "signup" []), flash "Username is required." s, st)
            else
              match st_users st !! username with
              | Some _ =>
                  (Return (Redirect "signup" []), flash "Username already exists!" s, st)
              | None =>
                  (Return (Redirect "login" []),
                   flash "Account created successfully! Please login." s,
                   set_users (<[username := generate_password_hash (r_salt req) password]>
                                (st_users st)) st)
              end
        end
    end
  else (Return (Render "signup.html"), s, st).

(** [login] (lines 86-101). *)
Definition login (req : request) (s : session_t) (st : store)
  : outcome response * session_t * store :=
  if decide (r_method req = "POST") then
    match r_form req !! "username" with
    | None => (Abort (BadRequestKeyError "username"), s, st)
    | Some u =>
        let username := strip u in
        match r_form req !! "password" with
        | None => (Abort (BadRequestKeyError "password"), s, st)
        | Some password =>
            let invalid :=
              (Return (Redirect "login" []), flash "Invalid username or password." s, st) in
            match st_users st !! username with
            | Some hashed =>
                if negb (bool_decide (hashed = "")) && check_password_hash hashed password then
                  (Return (Redirect "dashboard" []),
                   flash "Logged in successfully!"
                     {| s_user := Some username; s_flashes := s_flashes s |},
                   st)
                else invalid
            | None => invalid
            end
        end
    end
  else (Return (Render "login.html"), s, st).

(** [logout] (lines 103-107). *)
Definition logout (req : request) (s : session_t) (st : store)
  : outcome response * session_t * store :=
  (Return (Redirect "login" []),
   flash "Logged out successfully." {| s_user := None; s_flashes := s_flashes s |},
   st).

(** [customers_page] (lines 113-144). *)
Definition customers_page (req : request) (s : session_t) (st : store)
  : outcome response * session_t * store :=
  let '(logged_in, s) := require_login s in
  if negb logged_in then (Return (Redirect "login" []), s, st)
  else if decide (r_method req = "POST") then
    let customer_id := strip (default "" (r_form req !! "customer_id")) in
    let name := strip (default "" (r_form req !! "name")) in
    let interest := strip (default "" (r_form req !! "interest")) in
    let st1 :=
      set_customers
        (<[customer_id :=
             <["name" := or_unknown name]>
               (<["interest" := interest]> (<["created_at" := r_now req]> ∅))]>
           (st_customers st)) st in
    if decide (customer_id = "") then
      (Return (Redirect "customers_page" []), flash "Customer ID is required." s, st1)
    else
      match st_customers st1 !! customer_id with
      | Some _ =>
          (Return (Redirect "customers_page" []), flash "Customer already exists." s, st1)
      | None =>
          (Return (Redirect "customers_page" []),
           flash "Customer added successfully!" s,
           set_customers
             (<[customer_id :=
                  <["name" := or_unknown name]> (<["created_at" := r_now req]> ∅)]>
                (st_customers st1)) st1)
      end
  else (Return (Render "customers.html"), s, st).

(** [delete_customer] (lines 146-160). *)
Definition delete_customer (customer_id : string) (req : request) (s : session_t) (st : store)
  : outcome response * session_t * store :=
  let '(logged_in, s) := require_login s in
  if negb logged_in then (Return (Redirect "login" []), s, st)
  else
    let st1 :=
      match st_customers st !! customer_id with
      | Some _ => set_customers (delete customer_id (st_customers st)) st
      | None => st
      end in
    match drop_where "customer_id" (VStr customer_id) (st_campaigns st1) with
    | Raise e => (Abort (Propagated e), s, st1)
    | Ok kept =>
        (Return (Redirect "customers_page" []),
         flash ("Deleted customer " +:+ customer_id +:+ " and related campaigns.") s,
         set_campaigns kept st1)
    end.

(** Lines 197-200: the product of the form, or the recommended one once it
    has been printed. *)
Definition chosen_product (req : request) (st : store) (customer_id product : string)
  : outcome value :=
  if decide (product = "AI Recommended") then
    match recommend (st_customers st) (st_campaigns st) (VStr customer_id) (st_disk st) with
    | Raise e => Abort (Propagated e)
    | Ok predicted =>
        match print req (predicted_message customer_id predicted) with
        | Abort e => Abort e
        | Return _ => Return predicted
        end
    end
  else Return (VStr product).

(** [launch_campaign] (lines 183-225). *)
Definition launch_campaign (req : request) (s : session_t) (st : store)
  : outcome response * session_t * store :=
  match s_user s with
  | None => (Return (Redirect "login" []), flash "Please login first" s, st)
  | Some _ =>
      let customer_id := strip (default "" (r_form req !! "customer_id")) in
      let product := strip (default "" (r_form req !! "product")) in
      match st_customers st !! customer_id with
      | None =>
          (Return (Redirect "customers_page" []), flash "Customer not found." s, st)
      | Some _ =>
          match chosen_product req st customer_id product with
          | Abort e => (Abort e, s, st)
          | Return product =>
              let '(open_rate, click_rate, conversions) :=
                fake_metrics (r_rand1 req) (r_rand2 req) (r_rand3 req) in
              let st1 :=
                set_campaigns
                  (st_campaigns st
                   ++ [new_campaign req customer_id product open_rate click_rate conversions])
                  st in
              match train_and_save (st_customers st1) (st_campaigns st1) (st_disk st1) with
              | (Raise e, d) => (Abort (Propagated e), s, set_disk d st1)
              | (Ok result, d) =>
                  match print req (trained_message result) with
                  | Abort e => (Abort e, s, set_disk d st1)
                  | Return _ =>
                      (Return (Redirect "dashboard" []),
                       flash ("Campaign launched for " +:+ customer_id) s,
                       set_disk d st1)
                  end
              end
          end
      end
  end.

(** [delete_campaign] (lines 228-251). *)
Definition delete_campaign (campaign_id : string) (req : request) (s : session_t) (st : store)
  : outcome response * session_t * store :=
  let '(logged_in, s) := require_login s in
  if negb logged_in then (Return (Redirect "login" []), s, st)
  else
    let before := length (st_campaigns st) in
    match drop_where "id" (VStr campaign_id) (st_campaigns st) with
    | Raise e => (Abort (Propagated e), s, st)
    | Ok kept =>
        let st1 := set_campaigns kept st in
        let after := length kept in
        let s :=
          if (after <? before)%nat then flash "Campaign deleted." s
          else flash "Campaign not found." s in
        let next_page := default "dashboard" (r_form req !! "next") in
        if decide (next_page = "analytics") then
          let customer_filter := default "" (r_form req !! "customer") in
          let q := default "" (r_form req !! "q") in
          (Return (Redirect "analytics" [("customer", customer_filter); ("q", q)]), s, st1)
        else (Return (Redirect "dashboard" []), s, st1)
    end.

(** The routes above, and a request sent to one of them. *)
Inductive route :=
  | RSignup
  | RLogin
  | RLogout
  | RCustomersPage
  | RDeleteCustomer (customer_id : string)
  | RLaunchCampaign
  | RDeleteCampaign (campaign_id : string).

Definition handle (rt : route) (req : request) (s : session_t) (st : store)
  : outcome response * session_t * store :=
  match rt with
  | RSignup => signup req s st
  | RLogin => login req s st
  | RLogout => logout req s st
  | RCustomersPage => customers_page req s st
  | RDeleteCustomer customer_id => delete_customer customer_id req s st
  | RLaunchCampaign => launch_campaign req s st
  | RDeleteCampaign campaign_id => delete_campaign campaign_id req s st
  end.

(** The store after a sequence of requests, each with the session of the
    client that sends it. *)
Fixpoint run (trace : list (route * request * session_t)) (st : store) : store :=
  match trace with
  | [] => st
  | (rt, req, s) :: rest => run rest (handle rt req s st).2
  end.

End app.

(** The store at start-up: lines 15-25, with whatever the disk holds. *)
Definition initial_store (d : disk) : store :=
  {| st_users := ∅; st_customers := ∅; st_campaigns := []; st_disk := d |}.

(** An executable instance of [Runtime]: [strip] removes the ASCII white
    space at both ends; the password hash is a stand-in that keeps the salt
    and the password in clear. *)
Module ReferenceWeb.

Definition is_space (a : ascii) : bool :=
  let n := nat_of_ascii a in
  ((9 <=? n)%nat && (n <=? 13)%nat) || (n =? 32)%nat.

Fixpoint lstrip (s : string) : string :=
  match s with
  | EmptyString => EmptyString
  | String a s' => if is_space a then lstrip s' else s
  end.

Definition strip_ascii (s : string) : string :=
  String.rev (lstrip (String.rev (lstrip s))).

Definition hash_of (salt password : string) : string :=
  "pbkdf2:sha256$" +:+ salt +:+ "$" +:+ password.

(** The text of [s] before the first ["$"]. *)
Fixpoint until_dollar (s : string) : string :=
  match s with
  | EmptyString => EmptyString
  | String a s' => if bool_decide (a = "$"%char) then EmptyString else String a (until_dollar s')
  end.

(** The salt is read back from the hash, and the hash is computed again. *)
Definition check_hash (hashed password : string) : bool :=
  let salt := until_dollar (String.substring 14 (String.length hashed - 14) hashed) in
  bool_decide (hashed = hash_of salt password).

Definition runtime : Runtime := {|
  strip := strip_ascii;
  generate_password_hash := hash_of;
  check_password_hash := check_hash;
|}.

(** Requests, served with a standard output in UTF-8. *)
Definition post (form : list (string * string)) (uuid : string) (r1 r2 r3 : Z) : request :=
  {| r_method := "POST"; r_form := list_to_map form; r_uuid4 := uuid;
     r_now := "2024-01-01 10:00"; r_salt := "s1";
     r_rand1 := r1; r_rand2 := r2; r_rand3 := r3; r_stdout := fun _ => true |}.

(** A standard output in ASCII: a text is encoded when all its bytes are
    below 128. *)
Fixpoint is_ascii (text : string) : bool :=
  match text with
  | EmptyString => true
  | String a text' => (nat_of_ascii a <? 128)%nat && is_ascii text'
  end.

(** The request [req] served with a standard output in ASCII. *)
Definition on_ascii_stdout (req : request) : request :=
  {| r_method := r_method req; r_form := r_form req; r_uuid4 := r_uuid4 req;
     r_now := r_now req; r_salt := r_salt req;
     r_rand1 := r_rand1 req; r_rand2 := r_rand2 req; r_rand3 := r_rand3 req;
     r_stdout := is_ascii |}.

(** The form of a campaign launch. *)
Definition launch_form (customer_id product : string) : request :=
  post [("customer_id", customer_id); ("product", product)] "u9" 45 6 3.

Definition anonymous : session_t := {| s_user := None; s_flashes := [] |}.
Definition alice : session_t := {| s_user := Some "alice"; s_flashes := [] |}.

(** A store with two customers and three campaigns. *)
Definition shop : store :=
  {| st_users := {[ "alice" := hash_of "s1" "secret" ]};
     st_customers :=
       <["c1" := <["name" := "Ann"]> (<["interest" := "Music"]> ∅)]>
         (<["c2" := <["name" := "Bob"]> (<["interest" := "gadgets"]> ∅)]> ∅);
     st_campaigns :=
       [new_campaign (post [] "u1" 0 0 0) "c1" (VStr "Laptop") 50 10 1;
        new_campaign (post [] "u2" 0 0 0) "c2" (VStr "Smartwatch") 40 20 2;
        new_campaign (post [] "u3" 0 0 0) "c1" (VStr "Laptop") 70 7 0];
     st_disk := {| file := None; dev := Writable |} |}.

End ReferenceWeb.

(** ** Specification-side notions *)

(** A campaign record that has the two keys [build_training_data] indexes. *)
Definition carries (c : campaign) : Prop :=
  is_Some (c !! "customer_id") ∧ is_Some (c !! "product").

#[global] Instance carries_dec c : Decision (carries c).
Proof. unfold carries. apply _. Defined.

(** The four keys of a feature dictionary. *)
Definition feature_keys : gset string :=
  {[ "interest"; "open_rate"; "click_rate"; "conversions" ]}.

(** [c] is a campaign of customer [customer_id]. *)
Definition matches (customer_id : value) (c : campaign) : Prop :=
  c !! "customer_id" = Some customer_id.

#[global] Instance matches_dec customer_id c : Decision (matches customer_id c).
Proof. unfold matches. apply _. Defined.

(** [c] sits at position [i] of [campaigns], is a campaign of [customer_id],
    and no later element is. *)
Definition last_appended (campaigns : list campaign) (customer_id : value)
    (i : nat) (c : campaign) : Prop :=
  campaigns !! i = Some c ∧ matches customer_id c ∧
  ∀ j c', (i < j)%nat → campaigns !! j = Some c' → ¬ matches customer_id c'.

(** The keys of the fallback table. *)
Definition fallback_tags : list string :=
  ["electronics"; "gadgets"; "computers"; "music"].

(** The engagement values of a campaign are integers in the ranges that
    [fake_metrics] draws from. *)
Definition metrics_in_range (c : campaign) : Prop :=
  ∃ o k n, c !! "open_rate" = Some (VInt o) ∧ c !! "click_rate" = Some (VInt k) ∧
    c !! "conversions" = Some (VInt n) ∧
    (10 ≤ o ≤ 90)%Z ∧ (1 ≤ k ≤ o)%Z ∧ (0 ≤ n ≤ 10)%Z.

(** A campaign record as [launch_campaign] writes it, for a customer of
    [customers]. *)
Definition recorded (customers : customers_t) (c : campaign) : Prop :=
  (∃ cid, c !! "customer_id" = Some (VStr cid) ∧ is_Some (customers !! cid)) ∧
  is_Some (c !! "product") ∧
  (∃ i, c !! "id" = Some (VStr i)) ∧
  c !! "status" = Some (VStr "Sent") ∧
  metrics_in_range c.

(** Every stored campaign is such a record. *)
Definition store_ok (st : store) : Prop :=
  Forall (recorded (st_customers st)) (st_campaigns st).

(** The routes that start with the login check. *)
Definition protected (rt : route) : Prop :=
  match rt with
  | RSignup | RLogin | RLogout => False
  | _ => True
  end.

(** The value under [key], if any, is not a string. *)
Definition numeric (key : string) (c : campaign) : Prop :=
  ∀ s, c !! key ≠ Some (VStr s).

#[global] Instance numeric_dec key c : Decision (numeric key c).
Proof.
  unfold numeric. destruct (c !! key) as [[z|s]|].
  - left. by intros s.
  - right. intros H. by apply (H s).
  - left. by intros s.
Defined.

(** The three engagement values of [c] can be summed. *)
Definition summable (c : campaign) : Prop :=
  numeric "open_rate" c ∧ numeric "click_rate" c ∧ numeric "conversions" c.

(** ** Facts on the error monad and on [build_training_data] *)

Lemma getitem_Some c key v : c !! key = Some v → getitem c key = Ok v.
Proof. unfold getitem. by intros ->. Qed.

Lemma getitem_None c key : c !! key = None → getitem c key = Raise (KeyError key).
Proof. unfold getitem. by intros ->. Qed.

Lemma build_cons_Ok customers c rest cust_id p X y :
  c !! "customer_id" = Some cust_id →
  c !! "product" = Some p →
  build_training_data customers rest = Ok (X, y) →
  build_training_data customers (c :: rest)
  = Ok (build_features (customers_get customers cust_id) c :: X, p :: y).
Proof.
  intros Hc Hp Hr. cbn [build_training_data].
  rewrite (getitem_Some _ _ _ Hc), (getitem_Some _ _ _ Hp), Hr. reflexivity.
Qed.

Lemma build_cons_inv customers c rest X y :
  build_training_data customers (c :: rest) = Ok (X, y) →
  ∃ cust_id p X' y',
    c !! "customer_id" = Some cust_id ∧ c !! "product" = Some p ∧
    build_training_data customers rest = Ok (X', y') ∧
    X = build_features (customers_get customers cust_id) c :: X' ∧ y = p :: y'.
Proof.
  cbn [build_training_data]. unfold getitem.
  destruct (c !! "customer_id") as [cust_id|]; [|discriminate].
  destruct (c !! "product") as [p|]; [|discriminate].
  cbn. destruct (build_training_data customers rest) as [[X' y']|e]; [|discriminate].
  cbn. intros [= <- <-]. by exists cust_id, p, X', y'.
Qed.

Lemma build_Ok_inv customers campaigns X y :
  build_training_data customers campaigns = Ok (X, y) →
  length X = length campaigns ∧ length y = length campaigns ∧
  ∀ i c, campaigns !! i = Some c →
    ∃ cust_id, c !! "customer_id" = Some cust_id ∧
      X !! i = Some (build_features (customers_get customers cust_id) c) ∧
      y !! i = c !! "product".
Proof.
  revert X y. induction campaigns as [|c rest IH]; intros X y H.
  - injection H as <- <-. repeat split; intros i c Hi; by rewrite lookup_nil in Hi.
  - apply build_cons_inv in H as (cust_id & p & X' & y' & Hc & Hp & Hr & -> & ->).
    destruct (IH _ _ Hr) as (HX & Hy & Hl).
    repeat split; [cbn; by rewrite HX | cbn; by rewrite Hy |].
    intros [|i] c' Hi; cbn in Hi.
    + injection Hi as <-. exists cust_id. by rewrite Hp.
    + by apply Hl.
Qed.

Lemma build_total customers campaigns :
  Forall carries campaigns → ∃ X y, build_training_data customers campaigns = Ok (X, y).
Proof.
  induction 1 as [|c rest [[cust_id Hc] [p Hp]] _ (X & y & IH)].
  - by exists [], [].
  - eexists _, _. by apply build_cons_Ok.
Qed.

Lemma build_raises customers campaigns :
  Exists (fun c => ¬ carries c) campaigns →
  ∃ key, build_training_data customers campaigns = Raise (KeyError key) ∧
         (key = "customer_id" ∨ key = "product").
Proof.
  induction campaigns as [|c rest IH]; intros H; [by apply Exists_nil in H|].
  cbn [build_training_data]. unfold getitem.
  destruct (c !! "customer_id") as [cust_id|] eqn:Hc; [|exists "customer_id"; auto].
  destruct (c !! "product") as [p|] eqn:Hp; [|exists "product"; auto].
  apply Exists_cons in H as [H|H].
  - exfalso. apply H. split; [by rewrite Hc | by rewrite Hp].
  - destruct (IH H) as (key & -> & Hk). by exists key.
Qed.

Lemma build_Ok_carries customers campaigns X y :
  build_training_data customers campaigns = Ok (X, y) → Forall carries campaigns.
Proof.
  intros H. destruct (decide (Forall carries campaigns)) as [|Hn]; [done|].
  apply not_Forall_Exists in Hn; [|apply _].
  destruct (build_raises customers campaigns Hn) as (key & Hk & _). congruence.
Qed.

(** ** The feature builder and [build_training_data] *)

Lemma feature_dict_dom interest o c n :
  dom (feature_dict interest o c n) = feature_keys.
Proof.
  unfold feature_dict, feature_keys.
  rewrite !dom_insert_L, dom_empty_L. set_solver.
Qed.

Lemma feature_dict_lookup interest o c n :
  feature_dict interest o c n !! "interest" = Some (VStr interest) ∧
  feature_dict interest o c n !! "open_rate" = Some o ∧
  feature_dict interest o c n !! "click_rate" = Some c ∧
  feature_dict interest o c n !! "conversions" = Some n.
Proof. unfold feature_dict. repeat split; by simplify_map_eq. Qed.

(** [customers.get(cust_id, {}).get("interest", "unknown")] read on the
    mapping itself. *)
Lemma interest_of_get (customers : customers_t) (cust_id : value) :
  interest_of (customers_get customers cust_id)
  = match cust_id with
    | VStr id => default "unknown" (customers !! id ≫= lookup "interest")
    | VInt _ => "unknown"
    end.
Proof.
  unfold interest_of, customers_get, customer_of.
  destruct cust_id as [z|id]; cbn; [by rewrite lookup_empty|].
  destruct (customers !! id) as [r|]; cbn; [done | by rewrite lookup_empty].
Qed.

(** C10.  When every campaign has the keys [customer_id] and [product],
    [build_training_data] returns lists [X] and [y] as long as [campaigns].
    Their [i]-th entries are built from the [i]-th campaign: the label is
    that campaign's product, and the example is the dictionary with exactly
    the keys interest, open_rate, click_rate and conversions, whose interest
    is that of the customer stored under the campaign's [customer_id]
    ([unknown] when there is no such customer or it has no interest) and
    whose engagement values are the campaign's (0 for a missing one).  When
    some campaign lacks one of the two keys the call raises [KeyError] on that
    key: nothing is skipped. *)
Theorem build_training_data_total (customers : customers_t) (campaigns : list campaign) :
  (Forall carries campaigns →
   ∃ X y, build_training_data customers campaigns = Ok (X, y) ∧
     length X = length campaigns ∧ length y = length campaigns ∧
     ∀ i c, campaigns !! i = Some c →
       ∃ cust_id f, c !! "customer_id" = Some cust_id ∧
         X !! i = Some f ∧
         y !! i = c !! "product" ∧
         f = build_features (customers_get customers cust_id) c ∧
         dom f = ({[ "interest"; "open_rate"; "click_rate"; "conversions" ]} : gset string) ∧
         f !! "interest"
         = Some (VStr match cust_id with
                      | VStr id => default "unknown" (customers !! id ≫= lookup "interest")
                      | VInt _ => "unknown"
                      end) ∧
         f !! "open_rate" = Some (default (VInt 0) (c !! "open_rate")) ∧
         f !! "click_rate" = Some (default (VInt 0) (c !! "click_rate")) ∧
         f !! "conversions" = Some (default (VInt 0) (c !! "conversions"))) ∧
  (Exists (fun c => ¬ carries c) campaigns →
   ∃ key, build_training_data customers campaigns = Raise (KeyError key) ∧
          (key = "customer_id" ∨ key = "product")).
Proof.
  split.
  - intros Hall. destruct (build_total customers campaigns Hall) as (X & y & H).
    exists X, y. split; [done|].
    destruct (build_Ok_inv _ _ _ _ H) as (HX & Hy & Hl).
    split; [done|]. split; [done|]. intros i c Hi.
    destruct (Hl i c Hi) as (cust_id & Hc & HXi & Hyi).
    exists cust_id, (build_features (customers_get customers cust_id) c).
    split; [done|]. split; [done|]. split; [done|]. split; [done|].
    unfold build_features.
    split; [apply feature_dict_dom|].
    destruct (feature_dict_lookup (interest_of (customers_get customers cust_id))
                (default (VInt 0) (c !! "open_rate"))
                (default (VInt 0) (c !! "click_rate"))
                (default (VInt 0) (c !! "conversions"))) as (Hfi & Hfo & Hfc & Hfn).
    split; [|done]. by rewrite Hfi, interest_of_get.
  - apply build_raises.
Qed.

(** C7.  For a customer record or none ([o]) and a campaign [c], the feature
    dictionary has exactly the keys interest, open_rate, click_rate and
    conversions; interest is [unknown] when there is no record or the record
    has no interest, and the record's interest otherwise; each engagement value
    is the campaign's, or 0 when the campaign has none.  A campaign whose
    customer id resolves to no customer still gives a training example, with
    interest [unknown], at its own position. *)
Theorem feature_builder_four_keys :
  (∀ (o : option customer) (c : campaign),
     let f := build_features (default ∅ o) c in
     dom f = feature_keys ∧
     ((o = None ∨ ∃ r, o = Some r ∧ r !! "interest" = None) →
      f !! "interest" = Some (VStr "unknown")) ∧
     (∀ r s, o = Some r → r !! "interest" = Some s → f !! "interest" = Some (VStr s)) ∧
     f !! "open_rate" = Some (default (VInt 0) (c !! "open_rate")) ∧
     f !! "click_rate" = Some (default (VInt 0) (c !! "click_rate")) ∧
     f !! "conversions" = Some (default (VInt 0) (c !! "conversions"))) ∧
  (∀ (customers : customers_t) (campaigns : list campaign) i c cust_id,
     Forall carries campaigns →
     campaigns !! i = Some c →
     c !! "customer_id" = Some cust_id →
     customer_of customers cust_id = None →
     ∃ X y f p, build_training_data customers campaigns = Ok (X, y) ∧
       length X = length campaigns ∧
       X !! i = Some f ∧ y !! i = Some p ∧ c !! "product" = Some p ∧
       dom f = feature_keys ∧ f !! "interest" = Some (VStr "unknown")).
Proof.
  split.
  - intros o c f. subst f. unfold build_features.
    destruct (feature_dict_lookup (interest_of (default ∅ o))
                (default (VInt 0) (c !! "open_rate"))
                (default (VInt 0) (c !! "click_rate"))
                (default (VInt 0) (c !! "conversions"))) as (Hi & Ho & Hc & Hn).
    split; [apply feature_dict_dom|].
    rewrite Hi, Ho, Hc, Hn. unfold interest_of. repeat split.
    + intros [-> | (r & -> & Hr)]; cbn; [by rewrite lookup_empty | by rewrite Hr].
    + intros r s -> Hr. cbn. by rewrite Hr.
  - intros customers campaigns i c cust_id Hall Hi Hc Hnone.
    destruct (build_total customers campaigns Hall) as (X & y & H).
    destruct (build_Ok_inv _ _ _ _ H) as (HX & _ & Hl).
    destruct (Hl i c Hi) as (cust_id' & Hc' & HXi & Hyi).
    assert (cust_id' = cust_id) as -> by congruence.
    rewrite Forall_lookup in Hall. destruct (Hall i c Hi) as [_ [p Hp]].
    exists X, y, (build_features (customers_get customers cust_id) c), p.
    split; [done|]. split; [done|]. split; [done|].
    split; [congruence|]. split; [done|]. split; [apply feature_dict_dom|].
    unfold build_features, customers_get, interest_of. rewrite Hnone. cbn.
    rewrite lookup_empty. cbn.
    apply feature_dict_lookup.
Qed.

(** ** The list comprehension of [recommend] *)

Lemma recent_of_filter campaigns customer_id :
  Forall (fun c => is_Some (c !! "customer_id")) campaigns →
  recent_of campaigns customer_id = Ok (filter (matches customer_id) campaigns).
Proof.
  induction 1 as [|c rest [cid Hc] _ IH]; [done|].
  cbn [recent_of]. rewrite (getitem_Some _ _ _ Hc), IH. cbn [mbind result_bind].
  destruct (decide (cid = customer_id)) as [->|Hne].
  - by rewrite filter_cons_True.
  - rewrite filter_cons_False; [done|]. unfold matches. congruence.
Qed.

Lemma recent_of_raises campaigns customer_id :
  Exists (fun c => c !! "customer_id" = None) campaigns →
  recent_of campaigns customer_id = Raise (KeyError "customer_id").
Proof.
  induction campaigns as [|c rest IH]; intros H; [by apply Exists_nil in H|].
  cbn [recent_of]. unfold getitem.
  destruct (c !! "customer_id") as [cid|] eqn:Hc; [|done].
  apply Exists_cons in H as [H|H]; [congruence|].
  by rewrite (IH H).
Qed.

Lemma filter_none {A} (P : A → Prop) `{!∀ x, Decision (P x)} (l : list A) :
  (∀ x, x ∈ l → ¬ P x) → filter P l = [].
Proof.
  induction l as [|a l IH]; intros Hall; [done|].
  rewrite filter_cons_False; [|apply Hall; left].
  apply IH. intros x Hx. apply Hall. by right.
Qed.

Lemma last_filter_at {A} (P : A → Prop) `{!∀ x, Decision (P x)} (l : list A) i x :
  l !! i = Some x → P x →
  (∀ j y, (i < j)%nat → l !! j = Some y → ¬ P y) →
  last (filter P l) = Some x.
Proof.
  intros Hi Hx Hafter.
  rewrite <- (take_drop_middle l i x Hi), filter_app, filter_cons_True by done.
  rewrite (filter_none P (drop (S i) l)).
  - apply last_snoc.
  - intros y Hy. apply list_elem_of_lookup in Hy as [k Hk].
    rewrite lookup_drop in Hk. apply (Hafter (S i + k)%nat y); [lia|done].
Qed.

Lemma last_filter_inv {A} (P : A → Prop) `{!∀ x, Decision (P x)} (l : list A) x :
  last (filter P l) = Some x →
  ∃ i, l !! i = Some x ∧ P x ∧ ∀ j y, (i < j)%nat → l !! j = Some y → ¬ P y.
Proof.
  induction l as [|a l IH] using rev_ind; [done|].
  rewrite filter_app. destruct (decide (P a)) as [Ha|Ha].
  - rewrite filter_cons_True, filter_nil, last_snoc by done. intros [= <-].
    exists (length l). split; [by rewrite list_lookup_middle|]. split; [done|].
    intros j y Hj Hy. apply lookup_lt_Some in Hy. rewrite length_app in Hy. cbn in Hy. lia.
  - rewrite filter_cons_False, filter_nil, app_nil_r by done. intros Hlast.
    destruct (IH Hlast) as (i & Hi & Hx & Hafter).
    exists i. split; [by apply lookup_app_l_Some|]. split; [done|].
    intros j y Hj Hy. destruct (decide (j < length l)%nat) as [Hlt|Hge].
    + rewrite lookup_app_l in Hy by done. by apply (Hafter j).
    + rewrite lookup_app_r in Hy by lia.
      destruct (j - length l)%nat; cbn in Hy; [congruence | discriminate Hy].
Qed.

(** Either some element of [campaigns] is the last appended for
    [customer_id], or no element is a campaign of [customer_id]. *)
Lemma last_appended_cases (campaigns : list campaign) customer_id :
  (∃ i c, last_appended campaigns customer_id i c) ∨
  (∀ c, c ∈ campaigns → ¬ matches customer_id c).
Proof.
  destruct (last (filter (matches customer_id) campaigns)) as [c|] eqn:Hlast.
  - left. destruct (last_filter_inv _ _ _ Hlast) as (i & Hi). by exists i, c.
  - right. apply last_None in Hlast. intros c Hc Hm.
    assert (c ∈ filter (matches customer_id) campaigns) as Hin
      by (by apply list_elem_of_filter).
    rewrite Hlast in Hin. by apply not_elem_of_nil in Hin.
Qed.

(** ** Training, persistence and recommendation *)

Section properties.
Context {SK : Sklearn}.
Context {PK : Pickle (Vectorizer * Classifier)}.
Implicit Types (customers : customers_t) (campaigns : list campaign).
Implicit Types (customer_id : value) (d : disk) (m : Vectorizer * Classifier).

Lemma load_model_absent d : file d = None → load_model d = Ok None.
Proof. unfold load_model. by intros ->. Qed.

Lemma load_model_present d b :
  file d = Some b → load_model d = (pickle_loads b ≫= fun m => Ok (Some m)).
Proof. unfold load_model. by intros ->. Qed.

(** The save on each kind of device. *)
Lemma dump_model_cases m d :
  dump_model m d
  = match dev d with
    | Writable => (Ok tt, {| file := Some (pickle_dumps m); dev := Writable |})
    | OpenFails => (Raise OSError, d)
    | WriteFails accepted =>
        (Raise OSError,
         {| file := Some (take accepted (pickle_dumps m)); dev := WriteFails accepted |})
    end.
Proof. unfold dump_model, open_wb, write_bytes. by destruct (dev d) eqn:Hd; cbn; rewrite ?Hd. Qed.

Lemma dump_model_writable m d :
  read_only d = false →
  dump_model m d = (Ok tt, {| file := Some (pickle_dumps m); dev := Writable |}).
Proof. rewrite dump_model_cases. unfold read_only. by destruct (dev d). Qed.

Lemma dump_model_locked m d : read_only d = true → (dump_model m d).1 = Raise OSError.
Proof. rewrite dump_model_cases. unfold read_only. by destruct (dev d). Qed.

(** C2.  When the campaigns give fewer than 5 training examples,
    [train_and_save] returns [None] and the disk, hence any model file on it,
    is exactly what it was. *)
Theorem train_and_save_insufficient customers campaigns d X y :
  build_training_data customers campaigns = Ok (X, y) →
  (length X < 5)%nat →
  train_and_save customers campaigns d = (Ok None, d).
Proof.
  intros HB Hlen. unfold train_and_save. rewrite HB.
  destruct (Nat.ltb_spec (length X) 5); [done|lia].
Qed.

(** The fallback path as a function of the interest tag. *)
Lemma recommend_absent customers campaigns customer_id d :
  file d = None →
  recommend customers campaigns customer_id d
  = Ok (VStr (default "Wireless Headphones"
                (mapping !! lower (interest_of (customers_get customers customer_id))))).
Proof. intros Hd. unfold recommend. by rewrite (load_model_absent d Hd). Qed.

(** C3.  With no model file, [recommend] returns, without raising, the product
    that the table gives to the lower-cased interest tag of the customer:
    Wireless Headphones for electronics, Smartwatch for gadgets, Laptop for
    computers, Bluetooth Speaker for music, and Wireless Headphones for any
    other tag, for the tag [unknown], for a customer with no interest and for
    an id that is not in [customers].  Any other call with no model file whose
    interest tag is the same up to the case of its letters returns the same
    product. *)
Theorem recommend_fallback customers campaigns customer_id d :
  file d = None →
  ∃ p, recommend customers campaigns customer_id d = Ok (VStr p) ∧
    let tag := lower (interest_of (customers_get customers customer_id)) in
    (tag = "electronics" → p = "Wireless Headphones") ∧
    (tag = "gadgets" → p = "Smartwatch") ∧
    (tag = "computers" → p = "Laptop") ∧
    (tag = "music" → p = "Bluetooth Speaker") ∧
    (tag ∉ fallback_tags → p = "Wireless Headphones") ∧
    (tag = "unknown" → p = "Wireless Headphones") ∧
    (customer_of customers customer_id = None → p = "Wireless Headphones") ∧
    (∀ r, customer_of customers customer_id = Some r → r !! "interest" = None →
          p = "Wireless Headphones") ∧
    (∀ customers' campaigns' customer_id' d',
       file d' = None →
       lower (interest_of (customers_get customers' customer_id')) = tag →
       recommend customers' campaigns' customer_id' d' = Ok (VStr p)).
Proof.
  intros Hd. eexists. split; [by apply recommend_absent|].
  assert (Hother : ∀ tag, tag ∉ fallback_tags →
            default "Wireless Headphones" (mapping !! tag) = "Wireless Headphones").
  { intros tag Hn. unfold fallback_tags in Hn.
    rewrite !not_elem_of_cons in Hn. destruct Hn as (H1 & H2 & H3 & H4 & _).
    unfold mapping. by rewrite !lookup_insert_ne, lookup_empty by done. }
  cbn zeta. repeat split.
  - by intros ->.
  - by intros ->.
  - by intros ->.
  - by intros ->.
  - apply Hother.
  - by intros ->.
  - intros Hnone. unfold customers_get. by rewrite Hnone.
  - intros r Hr Hi. unfold customers_get, interest_of. rewrite Hr. cbn. by rewrite Hi.
  - intros customers' campaigns' customer_id' d' Hd' Htag.
    by rewrite (recommend_absent _ _ _ _ Hd'), Htag.
Qed.

(** C9.  With no model file, two calls whose customers have the same interest
    tag return the same product, whatever the campaigns, the other customer
    fields and the ids are. *)
Theorem recommend_fallback_interest_only
    customers1 campaigns1 customer_id1 d1 customers2 campaigns2 customer_id2 d2 :
  file d1 = None →
  file d2 = None →
  interest_of (customers_get customers1 customer_id1)
  = interest_of (customers_get customers2 customer_id2) →
  recommend customers1 campaigns1 customer_id1 d1
  = recommend customers2 campaigns2 customer_id2 d2.
Proof.
  intros H1 H2 Hi. rewrite !recommend_absent by done. by rewrite Hi.
Qed.

(** The model path as a function of the loaded pair. *)
Lemma recommend_present customers campaigns customer_id d vec clf :
  load_model d = Ok (Some (vec, clf)) →
  Forall (fun c => is_Some (c !! "customer_id")) campaigns →
  recommend customers campaigns customer_id d
  = (transform_row vec
       (recommend_features (interest_of (customers_get customers customer_id))
          (filter (matches customer_id) campaigns))
     ≫= predict_row clf).
Proof.
  intros Hl Hall. unfold recommend. rewrite Hl. cbn [mbind result_bind].
  rewrite (recent_of_filter _ _ Hall). unfold transform, predict.
  cbn [mapM mbind result_bind mret result_ret].
  destruct (transform_row vec _) as [row|e];
    cbn [mapM mbind result_bind mret result_ret]; [|done].
  by destruct (predict_row clf row).
Qed.

(** With a model loaded, one campaign without [customer_id] makes the call
    raise. *)
Lemma recommend_present_raises customers campaigns customer_id d m :
  load_model d = Ok (Some m) →
  Exists (fun c => c !! "customer_id" = None) campaigns →
  recommend customers campaigns customer_id d = Raise (KeyError "customer_id").
Proof.
  intros Hl Hex. unfold recommend. rewrite Hl. cbn [mbind result_bind].
  destruct m as [vec clf]. by rewrite (recent_of_raises _ _ Hex).
Qed.

(** C4, as the code has it.  [load_model] and [recommend] catch nothing: when
    the model file exists and unpickling it raises, [recommend] raises the
    same exception.  Only a missing file leads to the fallback table. *)
Theorem recommend_load_failure customers campaigns customer_id d b e :
  file d = Some b →
  pickle_loads b = Raise e →
  load_model d = Raise e ∧ recommend customers campaigns customer_id d = Raise e.
Proof.
  intros Hd He.
  assert (load_model d = Raise e) as Hl by (by rewrite (load_model_present d b Hd), He).
  split; [done|]. unfold recommend. by rewrite Hl.
Qed.

(** C5, as the code has it.  [train_and_save] returns one of two values:
    [None] when there are fewer than 5 examples, with the disk untouched, and
    the fitted pair once it has been written to the model file.  There is no
    third returned value: a failure is raised.  A missing key, a failure of
    the vectorizer or of the classifier fit, and a failure to open the model
    file leave the disk untouched; the last is [OSError].  A write that fails
    once the file is open is [OSError] too, and by then the model that was
    there is gone: the file holds what the write got through of the new
    pickle, from its first byte. *)
Theorem train_and_save_outcomes customers campaigns d :
  match train_and_save customers campaigns d with
  | (Ok None, d') =>
      d' = d ∧
      ∃ X y, build_training_data customers campaigns = Ok (X, y) ∧ (length X < 5)%nat
  | (Ok (Some m), d') =>
      ∃ X y X_vec,
        build_training_data customers campaigns = Ok (X, y) ∧ (5 ≤ length X)%nat ∧
        fit_transform X = Ok (m.1, X_vec) ∧ clf_fit 500 X_vec y = Ok m.2 ∧
        dev d = Writable ∧ file d' = Some (pickle_dumps m) ∧ dev d' = Writable
  | (Raise e, d') =>
      (d' = d ∧ build_training_data customers campaigns = Raise e) ∨
      ∃ X y, build_training_data customers campaigns = Ok (X, y) ∧ (5 ≤ length X)%nat ∧
        ((d' = d ∧ fit_transform X = Raise e) ∨
         ∃ vec X_vec, fit_transform X = Ok (vec, X_vec) ∧
           ((d' = d ∧ clf_fit 500 X_vec y = Raise e) ∨
            ∃ clf, clf_fit 500 X_vec y = Ok clf ∧ e = OSError ∧
              ((d' = d ∧ dev d = OpenFails) ∨
               ∃ accepted, dev d = WriteFails accepted ∧ dev d' = dev d ∧
                 file d' = Some (take accepted (pickle_dumps (vec, clf))))))
  end.
Proof.
  unfold train_and_save.
  destruct (build_training_data customers campaigns) as [[X y]|e] eqn:HB; [|by left].
  destruct (Nat.ltb_spec (length X) 5) as [Hlt|Hge]; [by eauto|].
  destruct (fit_transform X) as [[vec X_vec]|e] eqn:HV;
    [|right; exists X, y; split; [done|]; split; [done|]; by left].
  destruct (clf_fit 500 X_vec y) as [clf|e] eqn:HF.
  - rewrite dump_model_cases. destruct (dev d) as [| |accepted] eqn:Hd.
    + exists X, y, X_vec. by repeat split.
    + right. exists X, y. split; [done|]. split; [done|]. right. exists vec, X_vec.
      split; [done|]. right. exists clf. split; [done|]. split; [done|]. by left.
    + right. exists X, y. split; [done|]. split; [done|]. right. exists vec, X_vec.
      split; [done|]. right. exists clf. split; [done|]. split; [done|]. right.
      by exists accepted.
  - right. exists X, y. split; [done|]. split; [done|]. right. exists vec, X_vec.
    split; [done|]. by left.
Qed.

(** C6, as the code has it.  When a model is loaded and every campaign has a
    [customer_id], [recommend] gives one feature dictionary to the loaded
    vectorizer and the row it makes to the loaded classifier: the customer's
    interest ([unknown] by default) with the engagement values of the last
    element of [campaigns] (in list order) whose [customer_id] is the
    requested one, and with zeros when no element is; one of the two is
    always the case.  It returns the label that the classifier predicts, with
    nothing applied to it, and that label is one of the classifier's classes;
    it raises what the transform or the prediction raises. *)
Theorem recommend_with_model customers campaigns customer_id d vec clf :
  load_model d = Ok (Some (vec, clf)) →
  Forall (fun c => is_Some (c !! "customer_id")) campaigns →
  let interest :=
    match customer_id with
    | VStr id => default "unknown" (customers !! id ≫= lookup "interest")
    | VInt _ => "unknown"
    end in
  ∃ feats : features,
    recommend customers campaigns customer_id d
    = (transform_row vec feats ≫= predict_row clf) ∧
    dom feats = feature_keys ∧
    feats !! "interest" = Some (VStr interest) ∧
    (∀ i c, last_appended campaigns customer_id i c →
       feats = <["interest" := VStr interest]>
                 (<["open_rate" := default (VInt 0) (c !! "open_rate")]>
                    (<["click_rate" := default (VInt 0) (c !! "click_rate")]>
                       (<["conversions" := default (VInt 0) (c !! "conversions")]> ∅)))) ∧
    ((∀ c, c ∈ campaigns → ¬ matches customer_id c) →
       feats = <["interest" := VStr interest]>
                 (<["open_rate" := VInt 0]>
                    (<["click_rate" := VInt 0]> (<["conversions" := VInt 0]> ∅)))) ∧
    ((∃ i c, last_appended campaigns customer_id i c) ∨
     (∀ c, c ∈ campaigns → ¬ matches customer_id c)) ∧
    (∀ row label, transform_row vec feats = Ok row → predict_row clf row = Ok label →
       recommend customers campaigns customer_id d = Ok label) ∧
    (∀ label, recommend customers campaigns customer_id d = Ok label →
       label ∈ classes_ clf ∧
       ∃ row, transform_row vec feats = Ok row ∧ predict_row clf row = Ok label) ∧
    (∀ e, transform_row vec feats = Raise e →
       recommend customers campaigns customer_id d = Raise e) ∧
    (∀ row e, transform_row vec feats = Ok row → predict_row clf row = Raise e →
       recommend customers campaigns customer_id d = Raise e).
Proof.
  intros Hl Hall interest.
  exists (recommend_features interest (filter (matches customer_id) campaigns)).
  rewrite (recommend_present _ _ _ _ _ _ Hl Hall), interest_of_get. fold interest.
  split; [done|]. split; [|split; [|split; [|split; [|split; [apply last_appended_cases|]]]]].
  - unfold recommend_features. destruct (last _); apply feature_dict_dom.
  - unfold recommend_features. destruct (last _); apply feature_dict_lookup.
  - intros i c (Hi & Hm & Hafter). unfold recommend_features.
    by rewrite (last_filter_at (matches customer_id) campaigns i c Hi Hm Hafter).
  - intros Hnone. unfold recommend_features. by rewrite (filter_none _ _ Hnone).
  - destruct (transform_row vec _) as [row|e] eqn:HT; cbn [mbind result_bind].
    + split; [by intros row' label [= <-]|]. split; [|split; [done|by intros row' e [= <-]]].
      intros label Hp. split; [by apply (predict_classes clf row)|]. by exists row.
    + split; [done|]. split; [done|]. split; [by intros e' [= <-]|done].
Qed.

(** C1, as the code has it.  For at least 5 campaigns that all have
    [customer_id] and [product], the examples are built; when neither the
    vectorizer nor the classifier fit raises, the model file can be opened
    and written and [pickle] gives back the pair it is given,
    [train_and_save] returns the fitted pair, the model file holds its
    serialisation and [load_model] returns that very pair.  [recommend] then
    gives what that pair predicts: a label of the classifier's classes, or
    the exception of the transform or of the prediction. *)
Theorem train_and_save_then_load customers campaigns d :
  (5 ≤ length campaigns)%nat →
  Forall carries campaigns →
  ∃ X y, build_training_data customers campaigns = Ok (X, y) ∧
    ∀ vec X_vec clf,
      fit_transform X = Ok (vec, X_vec) →
      clf_fit 500 X_vec y = Ok clf →
      read_only d = false →
      pickle_loads (pickle_dumps (vec, clf)) = Ok (vec, clf) →
      ∃ d', train_and_save customers campaigns d = (Ok (Some (vec, clf)), d') ∧
        file d' = Some (pickle_dumps (vec, clf)) ∧
        load_model d' = Ok (Some (vec, clf)) ∧
        ∀ customers' campaigns' customer_id,
          Forall (fun c => is_Some (c !! "customer_id")) campaigns' →
          recommend customers' campaigns' customer_id d'
          = (transform_row vec
               (recommend_features
                  (interest_of (customers_get customers' customer_id))
                  (filter (matches customer_id) campaigns'))
             ≫= predict_row clf) ∧
          ∀ label, recommend customers' campaigns' customer_id d' = Ok label →
                   label ∈ classes_ clf.
Proof.
  intros Hlen Hall.
  destruct (build_total customers campaigns Hall) as (X & y & HB).
  exists X, y. split; [done|].
  destruct (build_Ok_inv _ _ _ _ HB) as (HX & _ & _).
  intros vec X_vec clf HV HF Hro Hrt.
  assert (load_model {| file := Some (pickle_dumps (vec, clf)); dev := Writable |}
          = Ok (Some (vec, clf))) as Hload
    by (unfold load_model; cbn [file]; by rewrite Hrt).
  eexists. split; [|split; [|split]].
  - unfold train_and_save. rewrite HB.
    destruct (Nat.ltb_spec (length X) 5) as [Hlt|_]; [lia|].
    by rewrite HV, HF, (dump_model_writable _ _ Hro).
  - done.
  - done.
  - intros customers' campaigns' customer_id Hcid.
    rewrite (recommend_present _ _ _ _ _ _ Hload Hcid). split; [done|].
    intros label. destruct (transform_row vec _) as [row|e]; cbn [mbind result_bind]; [|done].
    apply predict_classes.
Qed.

(** C8, as the code has it.  The save opens the model file itself for writing
    and writes the pickle into it: there is no temporary file and no rename.
    Stopped after [k] bytes, it leaves the first [k] bytes of the new pickle
    as the model file, whatever the file held before, and that prefix is what
    [load_model] then unpickles; only with all the bytes written is the file
    the one a complete save leaves. *)
Theorem dump_model_in_place m d k :
  read_only d = false →
  ∃ d', dump_model_interrupted k m d = Ok d' ∧
    file d' = Some (take k (pickle_dumps m)) ∧
    load_model d' = (pickle_loads (take k (pickle_dumps m)) ≫= fun m' => Ok (Some m')) ∧
    ((length (pickle_dumps m) ≤ k)%nat → dump_model m d = (Ok tt, d') ∧
                                          file d' = Some (pickle_dumps m)).
Proof.
  intros Hro. rewrite (dump_model_writable _ _ Hro).
  unfold dump_model_interrupted, open_wb, write_bytes.
  unfold read_only in Hro. destruct (dev d) eqn:Hd; [|done|done].
  cbn [mbind result_bind]. eexists. split; [done|]. cbn [file default app]. split; [done|]. split; [done|].
  intros Hk. by rewrite (take_ge _ _ Hk).
Qed.

End properties.

(** ** Further properties of [ml_model.py] *)

Local Open Scope list_scope.



(** X2.  The exception of [build_training_data] is that of the first record,
    in list order, that lacks a key, and within a record [customer_id] is
    looked up before [product]; what follows that record is not looked at. *)
Theorem build_training_data_first_error customers before c after :
  Forall carries before →
  (c !! "customer_id" = None →
   build_training_data customers (before ++ c :: after) = Raise (KeyError "customer_id")) ∧
  (is_Some (c !! "customer_id") → c !! "product" = None →
   build_training_data customers (before ++ c :: after) = Raise (KeyError "product")).
Proof.
  induction 1 as [|c0 before [[cust_id Hc] [p Hp]] _ [IH1 IH2]].
  - split.
    + intros Hn. cbn [app build_training_data]. by rewrite (getitem_None _ _ Hn).
    + intros [cust_id Hc] Hn. cbn [app build_training_data].
      by rewrite (getitem_Some _ _ _ Hc), (getitem_None _ _ Hn).
  - split.
    + intros Hn. cbn [app build_training_data].
      rewrite (getitem_Some _ _ _ Hc), (getitem_Some _ _ _ Hp).
      cbn [mbind result_bind]. by rewrite (IH1 Hn).
    + intros Hs Hn. cbn [app build_training_data].
      rewrite (getitem_Some _ _ _ Hc), (getitem_Some _ _ _ Hp).
      cbn [mbind result_bind]. by rewrite (IH2 Hs Hn).
Qed.

(** X3.  The customers mapping can neither make [build_training_data] raise
    nor change a label: two mappings give the same labels or the same
    exception.  The feature dictionaries depend on the mapping through the
    interest tags only. *)
Theorem build_training_data_customers customers1 customers2 campaigns :
  match build_training_data customers1 campaigns,
        build_training_data customers2 campaigns with
  | Ok (X1, y1), Ok (X2, y2) =>
      y1 = y2 ∧ length X1 = length X2 ∧
      ((∀ cust_id, interest_of (customers_get customers1 cust_id)
                   = interest_of (customers_get customers2 cust_id)) → X1 = X2)
  | Raise e1, Raise e2 => e1 = e2
  | _, _ => False
  end.
Proof.
  induction campaigns as [|c rest IH]; [done|].
  cbn [build_training_data]. unfold getitem.
  destruct (c !! "customer_id") as [cust_id|]; [|done].
  destruct (c !! "product") as [p|]; [|done].
  cbn [mbind result_bind].
  destruct (build_training_data customers1 rest) as [[X1 y1]|e1],
           (build_training_data customers2 rest) as [[X2 y2]|e2]; try done.
  cbn [mbind result_bind]. destruct IH as (-> & Hlen & HX).
  split; [done|]. split; [cbn; by rewrite Hlen|].
  intros Hi. rewrite (HX Hi). unfold build_features. by rewrite Hi.
Qed.

Lemma mapping_values tag p : mapping !! tag = Some p → p ∈ PRODUCTS.
Proof.
  unfold mapping, PRODUCTS. intros H.
  repeat (apply lookup_insert_Some in H as [[_ <-]|[_ H]]; [set_solver|]).
  by rewrite lookup_empty in H.
Qed.

Lemma recent_of_skip l1 c l2 customer_id other :
  c !! "customer_id" = Some other → other ≠ customer_id →
  recent_of (l1 ++ c :: l2) customer_id = recent_of (l1 ++ l2) customer_id.
Proof.
  intros Hc Hne. induction l1 as [|c0 l1 IH].
  - cbn [app recent_of]. rewrite (getitem_Some _ _ _ Hc). cbn [mbind result_bind].
    destruct (recent_of l2 customer_id) as [recent|e]; [|done].
    cbn [mbind result_bind]. by rewrite decide_False.
  - cbn [app recent_of]. by rewrite IH.
Qed.

Section more_properties.
Context {SK : Sklearn}.
Context {PK : Pickle (Vectorizer * Classifier)}.
Implicit Types (customers : customers_t) (campaigns : list campaign).
Implicit Types (customer_id : value) (d : disk).

(** X4.  With no model file, the product that [recommend] returns is one of
    the four of [PRODUCTS], whoever the customer is. *)
Theorem recommend_fallback_in_PRODUCTS customers campaigns customer_id d :
  file d = None →
  ∃ p, recommend customers campaigns customer_id d = Ok (VStr p) ∧ p ∈ PRODUCTS.
Proof.
  intros Hd. eexists. split; [by apply recommend_absent|].
  destruct (mapping !! _) as [p|] eqn:Hp; cbn.
  - by apply (mapping_values _ _ Hp).
  - unfold PRODUCTS. set_solver.
Qed.

(** X5.  A campaign of another customer has no influence on [recommend]:
    with or without it in the list, at any position, the call returns the
    same product or raises the same exception, whatever the model file is. *)
Theorem recommend_other_customer customers before c after customer_id other d :
  c !! "customer_id" = Some other →
  other ≠ customer_id →
  recommend customers (before ++ c :: after) customer_id d
  = recommend customers (before ++ after) customer_id d.
Proof.
  intros Hc Hne. unfold recommend.
  destruct (load_model d) as [[[vec clf]|]|e]; cbn [mbind result_bind]; [|done|done].
  by rewrite (recent_of_skip _ _ _ _ _ Hc Hne).
Qed.

(** X6.  Of the customer records, [recommend] reads the interest of the
    requested customer and nothing else, with a model as without: two
    mappings that give that customer the same interest give the same
    result. *)
Theorem recommend_interest_only customers1 customers2 campaigns customer_id d :
  interest_of (customers_get customers1 customer_id)
  = interest_of (customers_get customers2 customer_id) →
  recommend customers1 campaigns customer_id d
  = recommend customers2 campaigns customer_id d.
Proof. intros Hi. unfold recommend. by rewrite Hi. Qed.

(** X7.  Training starts from scratch: what the model file held before has no
    influence.  On two disks that both take a save or both refuse it,
    whatever their files hold, [train_and_save] returns the same result, and
    when it returns a model it leaves the same disk, whose file is the pickle
    of that model. *)
Theorem train_and_save_from_scratch customers campaigns d1 d2 :
  read_only d1 = read_only d2 →
  (train_and_save customers campaigns d1).1 = (train_and_save customers campaigns d2).1 ∧
  ∀ m, (train_and_save customers campaigns d1).1 = Ok (Some m) →
       (train_and_save customers campaigns d1).2 = (train_and_save customers campaigns d2).2 ∧
       file (train_and_save customers campaigns d1).2 = Some (pickle_dumps m).
Proof.
  intros Hro. unfold train_and_save.
  destruct (build_training_data customers campaigns) as [[X y]|e]; [|done].
  destruct (length X <? 5)%nat; [done|].
  destruct (fit_transform X) as [[vec X_vec]|e]; [|done].
  destruct (clf_fit 500 X_vec y) as [clf|e]; [|done].
  rewrite !dump_model_cases. unfold read_only in Hro.
  destruct (dev d1), (dev d2); try discriminate Hro; cbn; (split; [done|]);
    intros m [= <-]; done.
Qed.

(** X8.  The threshold is on the number of campaigns: for campaigns that all
    have [customer_id] and [product], [train_and_save] returns [None] exactly
    when there are fewer than 5 of them; from 5 on the classifier is fitted,
    and the call returns the model or raises. *)
Theorem train_and_save_threshold customers campaigns d :
  Forall carries campaigns →
  ((train_and_save customers campaigns d).1 = Ok None ↔ (length campaigns < 5)%nat).
Proof.
  intros Hall. destruct (build_total customers campaigns Hall) as (X & y & HB).
  destruct (build_Ok_inv _ _ _ _ HB) as (HX & _ & _).
  unfold train_and_save. rewrite HB, HX.
  destruct (Nat.ltb_spec (length campaigns) 5) as [Hlt|Hge]; [done|].
  split; [|lia].
  destruct (fit_transform X) as [[vec X_vec]|e]; [|done].
  destruct (clf_fit 500 X_vec y) as [clf|e]; [|done].
  by destruct (dump_model (vec, clf) d) as [[[]|e] d'].
Qed.

End more_properties.

(** ** Properties of [app.py]: metrics and statistics *)

Lemma randint_range a b r : (a ≤ b)%Z → (a ≤ randint a b r ≤ b)%Z.
Proof.
  intros Hab. unfold randint.
  pose proof (Z.mod_pos_bound r (b - a + 1)) as Hm. lia.
Qed.

Lemma randint_onto a b v : (a ≤ v ≤ b)%Z → randint a b (v - a) = v.
Proof. intros Hv. unfold randint. rewrite Z.mod_small; lia. Qed.

Lemma fake_metrics_bounds r1 r2 r3 o k n :
  fake_metrics r1 r2 r3 = (o, k, n) →
  (10 ≤ o ≤ 90)%Z ∧ (1 ≤ k ≤ o)%Z ∧ (0 ≤ n ≤ 10)%Z.
Proof.
  unfold fake_metrics. intros [= <- <- <-].
  pose proof (randint_range 10 90 r1 ltac:(lia)) as Ho.
  pose proof (randint_range 1 (Z.max 1 (randint 10 90 r1)) r2 ltac:(lia)) as Hk.
  pose proof (randint_range 0 10 r3 ltac:(lia)) as Hn.
  lia.
Qed.

(** X9.  Whatever the random draws are, [fake_metrics] gives an open rate
    from 10 to 90, a click rate from 1 to the open rate and from 0 to 10
    conversions; and every such triple is given by some draws. *)
Theorem fake_metrics_range :
  (∀ r1 r2 r3 o k n,
     fake_metrics r1 r2 r3 = (o, k, n) →
     (10 ≤ o ≤ 90)%Z ∧ (1 ≤ k ≤ o)%Z ∧ (0 ≤ n ≤ 10)%Z) ∧
  (∀ o k n,
     (10 ≤ o ≤ 90)%Z → (1 ≤ k ≤ o)%Z → (0 ≤ n ≤ 10)%Z →
     ∃ r1 r2 r3, fake_metrics r1 r2 r3 = (o, k, n)).
Proof.
  split.
  - apply fake_metrics_bounds.
  - intros o k n Ho Hk Hn. exists (o - 10)%Z, (k - 1)%Z, (n - 0)%Z.
    unfold fake_metrics. rewrite (randint_onto 10 90 o Ho).
    rewrite (randint_onto 1 (Z.max 1 o) k ltac:(lia)).
    by rewrite (randint_onto 0 10 n Hn).
Qed.

Lemma sum_of_numeric key l acc :
  Forall (numeric key) l → ∃ s, sum_of key l acc = Return s.
Proof.
  intros Hall. revert acc. induction Hall as [|c rest Hc _ IH]; intros acc.
  - by exists acc.
  - cbn [sum_of]. unfold numeric in Hc.
    destruct (c !! key) as [[z|s]|]; cbn; [apply IH | by destruct (Hc s) | apply IH].
Qed.

Lemma sum_of_TypeError key l acc :
  ¬ Forall (numeric key) l → sum_of key l acc = Abort TypeError.
Proof.
  revert acc. induction l as [|c rest IH]; intros acc Hn; [by destruct Hn|].
  cbn [sum_of]. destruct (c !! key) as [[z|s]|] eqn:Hc; cbn; [|done|].
  - apply IH. intros Hrest. apply Hn. constructor; [|done].
    intros s. rewrite Hc. congruence.
  - apply IH. intros Hrest. apply Hn. constructor; [|done].
    intros s. rewrite Hc. congruence.
Qed.

Lemma sum_of_between key l lo hi acc :
  Forall (fun c => ∃ z, c !! key = Some (VInt z) ∧ (lo ≤ z ≤ hi)%Z) l →
  ∃ s, sum_of key l acc = Return (acc + s)%Z ∧
       (lo * Z.of_nat (length l) ≤ s ≤ hi * Z.of_nat (length l))%Z.
Proof.
  intros Hall. revert acc.
  induction Hall as [|c rest (z & Hz & Hr) _ IH]; intros acc.
  - exists 0%Z. cbn. split; [f_equal|]; lia.
  - destruct (IH (acc + z)%Z) as (s & Hs & Hb). exists (z + s)%Z.
    cbn [sum_of]. rewrite Hz. cbn [default from_option id]. rewrite Hs. split; [f_equal; lia|].
    cbn [length]. lia.
Qed.

Lemma sum_of_le key1 key2 l a1 a2 s1 s2 :
  Forall (fun c => ∃ z1 z2, c !! key1 = Some (VInt z1) ∧ c !! key2 = Some (VInt z2) ∧
                            (z1 ≤ z2)%Z) l →
  sum_of key1 l a1 = Return s1 → sum_of key2 l a2 = Return s2 →
  (s1 - a1 ≤ s2 - a2)%Z.
Proof.
  intros Hall. revert a1 a2.
  induction Hall as [|c rest (z1 & z2 & H1 & H2 & Hle) _ IH]; intros a1 a2.
  - cbn. intros [= <-] [= <-]. lia.
  - cbn [sum_of]. rewrite H1, H2. cbn [default from_option id]. intros E1 E2.
    pose proof (IH _ _ E1 E2). lia.
Qed.

Lemma sum_of_perm key l1 l2 :
  l1 ≡ₚ l2 → ∀ acc, sum_of key l1 acc = sum_of key l2 acc.
Proof.
  induction 1 as [|c l1 l2 _ IH|c1 c2 l|l1 l2 l3 _ IH1 _ IH2]; intros acc.
  - done.
  - cbn [sum_of]. destruct (default _ _); [apply IH|done].
  - cbn [sum_of]. destruct (default (VInt 0) (c1 !! key)), (default (VInt 0) (c2 !! key));
      try done.
    f_equal. lia.
  - by rewrite IH1.
Qed.

Lemma float_limit_large : (100 ≤ float_limit)%Z.
Proof. by vm_compute. Qed.

Lemma quotient_fits s total :
  (Z.abs s ≤ 90 * Z.of_nat total)%Z → quotient_overflows s total = false.
Proof.
  intros Hs. unfold quotient_overflows. destruct total as [|n]; [done|].
  apply Z.leb_gt. pose proof float_limit_large as Hl.
  apply Z.le_lt_trans with (90 * Z.of_nat (S n))%Z; [done|].
  apply Z.mul_lt_mono_pos_r; lia.
Qed.

(** [compute_stats] step by step. *)
Lemma compute_stats_steps (campaign_list : list campaign) open_sum click_sum total_conv :
  sum_of "open_rate" campaign_list 0 = Return open_sum →
  sum_of "click_rate" campaign_list 0 = Return click_sum →
  sum_of "conversions" campaign_list 0 = Return total_conv →
  let t := length campaign_list in
  compute_stats campaign_list
  = if quotient_overflows open_sum t || quotient_overflows click_sum t
    then Abort (Propagated OverflowError)
    else Return (t,
                 length (filter (fun c : campaign => c !! "status" = Some (VStr "Sent"))
                           campaign_list),
                 average_of open_sum t, average_of click_sum t, total_conv).
Proof.
  intros Ho Hk Hn t. unfold compute_stats, rounded_average. fold t. rewrite Ho.
  destruct (quotient_overflows open_sum t); [done|]. rewrite Hk.
  destruct (quotient_overflows click_sum t); [done|]. by rewrite Hn.
Qed.

(** X10.  [compute_stats] returns exactly when no engagement value of the
    list is a string and neither average is beyond the floats; it raises
    [TypeError] or [OverflowError] otherwise, and [TypeError] when an open
    rate is a string.  When it returns, the total is the length of the list,
    the number of sent campaigns is at most the total, and for the empty list
    there is no division: both averages are the integer 0 and the conversions
    are 0. *)
Theorem compute_stats_returns (campaign_list : list campaign) :
  (Forall summable campaign_list →
   ∃ open_sum click_sum total_conv,
     sum_of "open_rate" campaign_list 0 = Return open_sum ∧
     sum_of "click_rate" campaign_list 0 = Return click_sum ∧
     sum_of "conversions" campaign_list 0 = Return total_conv ∧
     (campaign_list = [] ∨
      (Z.abs open_sum < float_limit * Z.of_nat (length campaign_list))%Z ∧
      (Z.abs click_sum < float_limit * Z.of_nat (length campaign_list))%Z →
      ∃ sent avg_open avg_click,
        compute_stats campaign_list
        = Return (length campaign_list, sent, avg_open, avg_click, total_conv) ∧
        (sent ≤ length campaign_list)%nat ∧
        (campaign_list = [] →
         sent = 0%nat ∧ avg_open = NoData ∧ avg_click = NoData ∧ total_conv = 0%Z) ∧
        (campaign_list ≠ [] →
         avg_open = Mean open_sum (length campaign_list) ∧
         avg_click = Mean click_sum (length campaign_list))) ∧
     (campaign_list ≠ [] →
      (float_limit * Z.of_nat (length campaign_list) ≤ Z.abs open_sum)%Z ∨
      (float_limit * Z.of_nat (length campaign_list) ≤ Z.abs click_sum)%Z →
      compute_stats campaign_list = Abort (Propagated OverflowError))) ∧
  (¬ Forall summable campaign_list →
   compute_stats campaign_list = Abort TypeError ∨
   compute_stats campaign_list = Abort (Propagated OverflowError)) ∧
  (¬ Forall (numeric "open_rate") campaign_list →
   compute_stats campaign_list = Abort TypeError).
Proof.
  set (t := length campaign_list). split; [|split].
  - intros Hall.
    assert (Forall (numeric "open_rate") campaign_list) as Ho
      by (eapply Forall_impl; [exact Hall|]; by intros c (? & ? & ?)).
    assert (Forall (numeric "click_rate") campaign_list) as Hk
      by (eapply Forall_impl; [exact Hall|]; by intros c (? & ? & ?)).
    assert (Forall (numeric "conversions") campaign_list) as Hn
      by (eapply Forall_impl; [exact Hall|]; by intros c (? & ? & ?)).
    destruct (sum_of_numeric _ _ 0%Z Ho) as [so Hso].
    destruct (sum_of_numeric _ _ 0%Z Hk) as [sk Hsk].
    destruct (sum_of_numeric _ _ 0%Z Hn) as [sn Hsn].
    exists so, sk, sn. split; [done|]. split; [done|]. split; [done|].
    rewrite (compute_stats_steps _ _ _ _ Hso Hsk Hsn). fold t. split.
    + intros Hfit.
      assert (quotient_overflows so t = false ∧ quotient_overflows sk t = false) as [-> ->].
      { unfold quotient_overflows. destruct Hfit as [->|[H1 H2]]; [done|].
        destruct t; [done|]. split; apply Z.leb_gt; lia. }
      eexists _, _, _. split; [done|]. split; [apply length_filter|]. split.
      * intros ->. cbn in *. by injection Hsn as <-.
      * intros Hne. subst t. by destruct campaign_list.
    + intros Hne Hover.
      assert (quotient_overflows so t || quotient_overflows sk t = true) as ->; [|done].
      unfold quotient_overflows. subst t. destruct campaign_list as [|c rest]; [done|].
      cbn [length]. apply orb_true_iff.
      destruct Hover as [H|H]; [left|right]; apply Z.leb_le; exact H.
  - intros Hn. unfold compute_stats.
    destruct (decide (Forall (numeric "open_rate") campaign_list)) as [Ho|Ho];
      [|left; by rewrite (sum_of_TypeError _ _ _ Ho)].
    destruct (sum_of_numeric _ _ 0%Z Ho) as [so ->]. unfold rounded_average.
    destruct (quotient_overflows so _); [by right|].
    destruct (decide (Forall (numeric "click_rate") campaign_list)) as [Hk|Hk];
      [|left; by rewrite (sum_of_TypeError _ _ _ Hk)].
    destruct (sum_of_numeric _ _ 0%Z Hk) as [sk ->].
    destruct (quotient_overflows sk _); [by right|].
    destruct (decide (Forall (numeric "conversions") campaign_list)) as [Hc|Hc];
      [|left; by rewrite (sum_of_TypeError _ _ _ Hc)].
    destruct Hn. rewrite Forall_forall in Ho, Hk, Hc. apply Forall_forall.
    intros c Hin. by split; [apply Ho|split; [apply Hk|apply Hc]].
  - intros Ho. unfold compute_stats. by rewrite (sum_of_TypeError _ _ _ Ho).
Qed.

(** X11.  The statistics do not depend on the order of the campaigns: two
    lists with the same records in any order give the same result.  (The
    analytics page computes them on the filtered list and shows that list
    reversed.) *)
Theorem compute_stats_permutation (l1 l2 : list campaign) :
  l1 ≡ₚ l2 → compute_stats l1 = compute_stats l2.
Proof.
  intros Hp. unfold compute_stats.
  rewrite !(sum_of_perm _ _ _ Hp), (Permutation_length Hp).
  assert (length (filter (fun c : campaign => c !! "status" = Some (VStr "Sent")) l1)
          = length (filter (fun c : campaign => c !! "status" = Some (VStr "Sent")) l2)) as ->;
    [|done].
  apply Permutation_length. by apply filter_Permutation.
Qed.

(** On campaigns with engagement values in the ranges of [fake_metrics] the
    sums are far from the floats' limit. *)
Lemma compute_stats_sums (campaign_list : list campaign) :
  Forall metrics_in_range campaign_list →
  let t := length campaign_list in
  ∃ open_sum click_sum total_conv,
    compute_stats campaign_list
    = Return (t,
              length (filter (fun c : campaign => c !! "status" = Some (VStr "Sent"))
                        campaign_list),
              average_of open_sum t, average_of click_sum t, total_conv) ∧
    (10 * Z.of_nat t ≤ open_sum ≤ 90 * Z.of_nat t)%Z ∧
    (Z.of_nat t ≤ click_sum ≤ open_sum)%Z ∧
    (0 ≤ total_conv ≤ 10 * Z.of_nat t)%Z.
Proof.
  intros Hall t.
  destruct (sum_of_between "open_rate" campaign_list 10 90 0) as (so & Hso & Hbo).
  { eapply Forall_impl; [exact Hall|]. intros c (o & k & n & Ho & _ & _ & ? & _). eauto. }
  destruct (sum_of_between "click_rate" campaign_list 1 90 0) as (sk & Hsk & Hbk).
  { eapply Forall_impl; [exact Hall|].
    intros c (o & k & n & _ & Hk & _ & ? & ? & _). exists k. split; [done|lia]. }
  destruct (sum_of_between "conversions" campaign_list 0 10 0) as (sn & Hsn & Hbn).
  { eapply Forall_impl; [exact Hall|]. intros c (o & k & n & _ & _ & Hn & _ & _ & ?). eauto. }
  assert (sk ≤ so)%Z as Hle.
  { assert (Forall (fun c : campaign =>
                      ∃ z1 z2, c !! "click_rate" = Some (VInt z1) ∧
                               c !! "open_rate" = Some (VInt z2) ∧ (z1 ≤ z2)%Z)
                   campaign_list) as Hpair.
    { eapply Forall_impl; [exact Hall|].
      intros c (o & k & n & Ho & Hk & _ & _ & ? & _). exists k, o. repeat split; [done|done|lia]. }
    pose proof (sum_of_le "click_rate" "open_rate" campaign_list 0 0 _ _ Hpair Hsk Hso).
    lia. }
  cbn [Z.add] in Hso, Hsk, Hsn.
  rewrite (compute_stats_steps _ _ _ _ Hso Hsk Hsn). fold t.
  rewrite !quotient_fits by (subst t; lia). cbn [orb].
  exists so, sk, sn. split; [done|]. subst t. lia.
Qed.

Lemma compute_stats_Return (campaign_list : list campaign) :
  Forall metrics_in_range campaign_list →
  ∃ stats, compute_stats campaign_list = Return stats.
Proof.
  intros Hall. destruct (compute_stats_sums _ Hall) as (so & sk & sn & -> & _). by eexists.
Qed.

(** X12.  On campaigns whose engagement values are in the ranges of
    [fake_metrics], [compute_stats] returns; with [t] the number of
    campaigns, the summed open rates are between [10 t] and [90 t], the
    summed click rates between [t] and the summed open rates, and the
    conversions between 0 and [10 t]. *)
Theorem compute_stats_in_range (campaign_list : list campaign) :
  Forall metrics_in_range campaign_list →
  let t := length campaign_list in
  ∃ sent open_sum click_sum total_conv,
    compute_stats campaign_list
    = Return (t, sent, average_of open_sum t, average_of click_sum t, total_conv) ∧
    (sent ≤ t)%nat ∧
    (10 * Z.of_nat t ≤ open_sum ≤ 90 * Z.of_nat t)%Z ∧
    (Z.of_nat t ≤ click_sum ≤ open_sum)%Z ∧
    (0 ≤ total_conv ≤ 10 * Z.of_nat t)%Z.
Proof.
  intros Hall t.
  destruct (compute_stats_sums _ Hall) as (so & sk & sn & Heq & Hbo & Hbk & Hbn).
  eexists _, so, sk, sn. split; [exact Heq|]. split; [apply length_filter|]. done.
Qed.

(** ** Properties of [app.py]: the routes *)

Lemma drop_where_filter key v l :
  Forall (fun c : campaign => is_Some (c !! key)) l →
  drop_where key v l = Ok (filter (fun c : campaign => c !! key ≠ Some v) l).
Proof.
  induction 1 as [|c rest [x Hx] _ IH]; [done|].
  cbn [drop_where]. rewrite (getitem_Some _ _ _ Hx), IH. cbn [mbind result_bind].
  destruct (decide (x = v)) as [->|Hne].
  - rewrite filter_cons_False; [done|]. intros H. by apply H.
  - rewrite filter_cons_True; [done|]. congruence.
Qed.

Lemma recorded_mono customers1 customers2 c :
  (∀ cid, is_Some (customers1 !! cid) → is_Some (customers2 !! cid)) →
  recorded customers1 c → recorded customers2 c.
Proof.
  intros Hsub ((cid & Hc & Hin) & Hrest). split; [|done].
  exists cid. split; [done|]. by apply Hsub.
Qed.

Lemma recorded_has_customer_id customers l :
  Forall (recorded customers) l →
  Forall (fun c : campaign => is_Some (c !! "customer_id")) l.
Proof.
  intros H. eapply Forall_impl; [exact H|]. intros c ((cid & Hc & _) & _). by rewrite Hc.
Qed.

Lemma recorded_has_id customers l :
  Forall (recorded customers) l → Forall (fun c : campaign => is_Some (c !! "id")) l.
Proof.
  intros H. eapply Forall_impl; [exact H|].
  intros c (_ & _ & (i & Hi) & _). by rewrite Hi.
Qed.

Lemma recorded_carries customers l :
  Forall (recorded customers) l → Forall carries l.
Proof.
  intros H. eapply Forall_impl; [exact H|].
  intros c ((cid & Hc & _) & Hp & _). split; [by rewrite Hc|done].
Qed.

Lemma recorded_in_range customers l :
  Forall (recorded customers) l → Forall metrics_in_range l.
Proof.
  intros H. eapply Forall_impl; [exact H|]. by intros c (_ & _ & _ & _ & Hm).
Qed.

Lemma new_campaign_recorded customers req cid product r1 r2 r3 :
  is_Some (customers !! cid) →
  recorded customers
    (new_campaign req cid product (fake_metrics r1 r2 r3).1.1 (fake_metrics r1 r2 r3).1.2
       (fake_metrics r1 r2 r3).2).
Proof.
  intros Hin. destruct (fake_metrics r1 r2 r3) as [[o k] n] eqn:Hf.
  destruct (fake_metrics_bounds _ _ _ _ _ _ Hf) as (Ho & Hk & Hn).
  unfold new_campaign. split; [|split; [|split; [|split]]].
  - exists cid. split; [by simplify_map_eq|done].
  - by simplify_map_eq.
  - eexists. by simplify_map_eq.
  - by simplify_map_eq.
  - exists o, k, n. cbn [fst snd]. repeat split; try lia; by simplify_map_eq.
Qed.

Lemma store_ok_ext st st' :
  st_customers st' = st_customers st → st_campaigns st' = st_campaigns st →
  store_ok st → store_ok st'.
Proof. unfold store_ok. by intros -> ->. Qed.

Section app_properties.
Context {RT : Runtime}.
Context {SK : Sklearn}.
Context {PK : Pickle (Vectorizer * Classifier)}.
Implicit Types (req : request) (s : session_t) (st : store) (rt : route).

Lemma train_and_save_result_cases customers campaigns d :
  ∃ r d', train_and_save customers campaigns d = (r, d').
Proof. destruct (train_and_save customers campaigns d) as [r d']. by exists r, d'. Qed.

(** X13.  A request to a route that starts with the login check, sent without
    a logged-in user, is redirected to the login page with one flashed
    message; the store is left as it was and nobody is logged in. *)
Theorem protected_routes_require_login rt req s st :
  protected rt →
  s_user s = None →
  ∃ msg, handle rt req s st = (Return (Redirect "login" []), flash msg s, st).
Proof.
  intros Hp Hs. destruct rt; try done; cbn [handle];
    unfold customers_page, delete_customer, launch_campaign, delete_campaign, require_login;
    rewrite Hs; cbn; by eexists.
Qed.

(** X14.  What a route leaves alone: the accounts are changed by [signup]
    only, the model file by [launch_campaign] only, the customers by
    [customers_page] and [delete_customer] only, and the account and customer
    routes never touch the campaigns, whatever the request and even when the
    route raises. *)
Theorem routes_frame rt req s st :
  let st' := (handle rt req s st).2 in
  (rt ≠ RSignup → st_users st' = st_users st) ∧
  (rt ≠ RLaunchCampaign → st_disk st' = st_disk st) ∧
  (rt ≠ RCustomersPage → (∀ cid, rt ≠ RDeleteCustomer cid) →
   st_customers st' = st_customers st) ∧
  (rt = RSignup ∨ rt = RLogin ∨ rt = RLogout ∨ rt = RCustomersPage →
   st_campaigns st' = st_campaigns st).
Proof.
  destruct rt; cbn [handle];
    unfold signup, login, logout, customers_page, delete_customer, launch_campaign,
      delete_campaign, require_login;
    repeat case_match; cbn; repeat split; try done; intuition congruence.
Qed.

Lemma signup_store_ok req s st : store_ok st → store_ok (signup req s st).2.
Proof. intros Hok. unfold signup. by repeat case_match. Qed.

Lemma login_store_ok req s st : store_ok st → store_ok (login req s st).2.
Proof. intros Hok. unfold login. by repeat case_match. Qed.

Lemma customers_page_store_ok req s st :
  store_ok st → store_ok (customers_page req s st).2.
Proof.
  intros Hok. unfold customers_page, require_login.
  repeat case_match; cbn; try done; unfold store_ok in *; cbn;
    (eapply Forall_impl; [exact Hok|]); intros c; apply recorded_mono; intros cid;
    rewrite ?lookup_insert_is_Some; intros Hin;
    destruct (decide (strip (default "" (r_form req !! "customer_id")) = cid)); tauto.
Qed.

Lemma recorded_delete customers customer_id c :
  recorded customers c →
  c !! "customer_id" ≠ Some (VStr customer_id) →
  recorded (delete customer_id customers) c.
Proof.
  intros ((cid & Hc & Hin) & Hrest) Hne. split; [|done].
  exists cid. split; [done|]. rewrite lookup_delete_ne; [done|]. congruence.
Qed.

Lemma delete_customer_store_ok customer_id req s st :
  store_ok st → store_ok (delete_customer customer_id req s st).2.
Proof.
  intros Hok. unfold delete_customer, require_login.
  destruct (s_user s); cbn; [|done].
  pose proof (drop_where_filter "customer_id" (VStr customer_id) _
                (recorded_has_customer_id _ _ Hok)) as Hd.
  destruct (st_customers st !! customer_id); cbn; rewrite Hd; cbn;
    unfold store_ok in *; cbn; apply Forall_forall; intros c Hin;
    apply list_elem_of_filter in Hin as [Hne Hin];
    rewrite Forall_forall in Hok; [apply recorded_delete; [by apply Hok|done] | by apply Hok].
Qed.

Lemma launch_campaign_store_ok req s st :
  store_ok st → store_ok (launch_campaign req s st).2.
Proof.
  intros Hok. unfold launch_campaign.
  destruct (s_user s); [|done].
  destruct (st_customers st !! strip (default "" (r_form req !! "customer_id")))
    as [rec|] eqn:Hcust; [|done].
  destruct (chosen_product _ _ _ _) as [product|e]; [|done].
  pose proof (new_campaign_recorded (st_customers st) req _ product
                (r_rand1 req) (r_rand2 req) (r_rand3 req) (mk_is_Some _ _ Hcust)) as Hnew.
  destruct (fake_metrics (r_rand1 req) (r_rand2 req) (r_rand3 req)) as [[o k] n].
  cbn [fst snd] in Hnew.
  assert (store_ok (set_campaigns
            (st_campaigns st ++ [new_campaign req
               (strip (default "" (r_form req !! "customer_id"))) product o k n]) st)) as H1.
  { unfold store_ok. cbn. apply Forall_app. split; [exact Hok|]. by constructor. }
  cbn zeta.
  destruct (train_and_save _ _ _) as [[r|e] d]; [destruct (print _ _)|]; cbn;
    by eapply store_ok_ext; [| |exact H1].
Qed.

Lemma delete_campaign_store_ok campaign_id req s st :
  store_ok st → store_ok (delete_campaign campaign_id req s st).2.
Proof.
  intros Hok. unfold delete_campaign, require_login.
  destruct (s_user s); cbn; [|done].
  rewrite (drop_where_filter "id" (VStr campaign_id) _ (recorded_has_id _ _ Hok)).
  assert (store_ok (set_campaigns
            (filter (fun c : campaign => c !! "id" ≠ Some (VStr campaign_id))
               (st_campaigns st)) st)) as H1.
  { unfold store_ok in *. cbn. apply Forall_forall. intros c Hin.
    apply list_elem_of_filter in Hin as [_ Hin]. rewrite Forall_forall in Hok.
    by apply Hok. }
  by repeat case_match.
Qed.

(** X15.  Every route keeps the store well formed, whatever the request and
    the session, and also when it raises: each stored campaign has an id, a
    product, the status Sent, the id of a customer that is in the store, and
    engagement values in the ranges of [fake_metrics]. *)
Theorem routes_preserve_store_ok rt req s st :
  store_ok st → store_ok (handle rt req s st).2.
Proof.
  intros Hok. destruct rt; cbn [handle].
  - by apply signup_store_ok.
  - by apply login_store_ok.
  - done.
  - by apply customers_page_store_ok.
  - by apply delete_customer_store_ok.
  - by apply launch_campaign_store_ok.
  - by apply delete_campaign_store_ok.
Qed.

Lemma run_store_ok trace st : store_ok st → store_ok (run trace st).
Proof.
  revert st. induction trace as [|[[rt req] s] rest IH]; intros st Hok; [done|].
  cbn [run]. apply IH. destruct rt; cbn [handle];
    [ by apply signup_store_ok | by apply login_store_ok | done
    | by apply customers_page_store_ok | by apply delete_customer_store_ok
    | by apply launch_campaign_store_ok | by apply delete_campaign_store_ok ].
Qed.

(** X16.  In the store reached from start-up by any sequence of requests, no
    lookup of the recommendation module or of the statistics can fail:
    [build_training_data] returns one example per stored campaign, the list
    comprehension of [recommend] returns for every customer id, and
    [compute_stats] returns. *)
Theorem reachable_store_is_well_formed trace d :
  let st := run trace (initial_store d) in
  store_ok st ∧
  (∃ X y, build_training_data (st_customers st) (st_campaigns st) = Ok (X, y) ∧
          length X = length (st_campaigns st)) ∧
  (∀ customer_id,
     recent_of (st_campaigns st) customer_id
     = Ok (filter (matches customer_id) (st_campaigns st))) ∧
  (∃ stats, compute_stats (st_campaigns st) = Return stats).
Proof.
  intros st.
  assert (store_ok st) as Hok by (apply run_store_ok; by constructor).
  split; [done|]. split; [|split].
  - destruct (build_total (st_customers st) (st_campaigns st)
                (recorded_carries _ _ Hok)) as (X & y & HB).
    exists X, y. split; [done|]. by destruct (build_Ok_inv _ _ _ _ HB).
  - intros customer_id. apply recent_of_filter. by eapply recorded_has_customer_id.
  - apply compute_stats_Return. by eapply recorded_in_range.
Qed.

Lemma drop_where_raises key v l :
  Exists (fun c : campaign => c !! key = None) l →
  drop_where key v l = Raise (KeyError key).
Proof.
  induction l as [|c rest IH]; intros H; [by apply Exists_nil in H|].
  cbn [drop_where]. unfold getitem.
  destruct (c !! key) as [x|] eqn:Hc; [|done].
  apply Exists_cons in H as [H|H]; [congruence|].
  by rewrite (IH H).
Qed.

Lemma filter_all {A} (P : A → Prop) `{!∀ x, Decision (P x)} (l : list A) :
  Forall P l → filter P l = l.
Proof.
  induction 1 as [|x l Hx _ IH]; [done|]. by rewrite filter_cons_True, IH.
Qed.

(** X17.  A logged-in POST to [customers_page] always stores the record built
    from the form, with its interest, under the stripped id: also when the id
    is empty and also over a customer that is there already.  The message
    flashed is never the one for success: it is the one for an empty id or
    the one for an existing customer. *)
Theorem customers_page_post_always_stores req s st user :
  s_user s = Some user →
  r_method req = "POST" →
  let customer_id := strip (default "" (r_form req !! "customer_id")) in
  let record : customer :=
    <["name" := or_unknown (strip (default "" (r_form req !! "name")))]>
      (<["interest" := strip (default "" (r_form req !! "interest"))]>
         (<["created_at" := r_now req]> ∅)) in
  customers_page req s st
  = (Return (Redirect "customers_page" []),
     flash (if decide (customer_id = "") then "Customer ID is required."
            else "Customer already exists.") s,
     set_customers (<[customer_id := record]> (st_customers st)) st) ∧
  st_customers (customers_page req s st).2 !! customer_id = Some record ∧
  record !! "interest" = Some (strip (default "" (r_form req !! "interest"))).
Proof.
  intros Hs Hm customer_id record.
  assert (customers_page req s st
          = (Return (Redirect "customers_page" []),
             flash (if decide (customer_id = "") then "Customer ID is required."
                    else "Customer already exists.") s,
             set_customers (<[customer_id := record]> (st_customers st)) st)) as Heq.
  { unfold customers_page, require_login. rewrite Hs. cbn [negb].
    rewrite decide_True by done. fold customer_id. fold record.
    destruct (decide (customer_id = "")); [done|].
    cbn [st_customers set_customers]. by rewrite lookup_insert_eq. }
  split; [done|]. rewrite Heq. cbn. split; [by rewrite lookup_insert_eq|].
  subst record. by simplify_map_eq.
Qed.

(** X18.  A logged-in [delete_customer], on campaigns that all have a
    [customer_id], removes the customer and every campaign of that customer
    and nothing else: the other campaigns stay, in their order.  When some
    campaign has no [customer_id] the call raises [KeyError] after the
    customer has been removed, with the campaigns as they were. *)
Theorem delete_customer_removes customer_id req s st user :
  s_user s = Some user →
  (Forall (fun c : campaign => is_Some (c !! "customer_id")) (st_campaigns st) →
   ∃ st', delete_customer customer_id req s st
          = (Return (Redirect "customers_page" []),
             flash ("Deleted customer " +:+ customer_id +:+ " and related campaigns.") s,
             st') ∧
     st_customers st' = delete customer_id (st_customers st) ∧
     st_campaigns st'
     = filter (fun c : campaign => c !! "customer_id" ≠ Some (VStr customer_id))
         (st_campaigns st) ∧
     st_users st' = st_users st ∧ st_disk st' = st_disk st ∧
     (∀ c, c ∈ st_campaigns st' → ¬ matches (VStr customer_id) c) ∧
     customer_of (st_customers st') (VStr customer_id) = None) ∧
  (Exists (fun c : campaign => c !! "customer_id" = None) (st_campaigns st) →
   delete_customer customer_id req s st
   = (Abort (Propagated (KeyError "customer_id")), s,
      set_customers (delete customer_id (st_customers st)) st)).
Proof.
  intros Hs.
  assert (match st_customers st !! customer_id with
          | Some _ => set_customers (delete customer_id (st_customers st)) st
          | None => st
          end = set_customers (delete customer_id (st_customers st)) st) as Hst1.
  { destruct (st_customers st !! customer_id) eqn:Hc; [done|].
    rewrite (delete_id _ _ Hc). by destruct st. }
  split.
  - intros Hall. unfold delete_customer, require_login. rewrite Hs, Hst1. cbn [negb].
    cbn [st_campaigns set_customers].
    rewrite (drop_where_filter _ _ _ Hall). eexists. split; [done|]. cbn.
    repeat split; [|by rewrite lookup_delete_eq].
    intros c Hin Hm. by apply list_elem_of_filter in Hin as [Hne _].
  - intros Hex. unfold delete_customer, require_login. rewrite Hs, Hst1. cbn [negb].
    cbn [st_campaigns set_customers]. by rewrite (drop_where_raises _ _ _ Hex).
Qed.

(** X19.  A logged-in [delete_campaign], on campaigns that all have an [id],
    keeps exactly the campaigns with another id, in their order.  It flashes
    that the campaign was deleted when some campaign had the id and that it
    was not found otherwise, in which case the campaigns are unchanged; the
    redirect goes to the analytics page when the form asks for it and to the
    dashboard otherwise.  The same request sent again finds nothing. *)
Theorem delete_campaign_reports campaign_id req s st user :
  s_user s = Some user →
  Forall (fun c : campaign => is_Some (c !! "id")) (st_campaigns st) →
  let kept :=
    filter (fun c : campaign => c !! "id" ≠ Some (VStr campaign_id)) (st_campaigns st) in
  let found :=
    Exists (fun c : campaign => c !! "id" = Some (VStr campaign_id)) (st_campaigns st) in
  let resp :=
    if decide (default "dashboard" (r_form req !! "next") = "analytics") then
      Redirect "analytics" [("customer", default "" (r_form req !! "customer"));
                            ("q", default "" (r_form req !! "q"))]
    else Redirect "dashboard" [] in
  (found →
   delete_campaign campaign_id req s st
   = (Return resp, flash "Campaign deleted." s, set_campaigns kept st)) ∧
  (¬ found →
   kept = st_campaigns st ∧
   delete_campaign campaign_id req s st
   = (Return resp, flash "Campaign not found." s, set_campaigns kept st)) ∧
  delete_campaign campaign_id req s (set_campaigns kept st)
  = (Return resp, flash "Campaign not found." s, set_campaigns kept st).
Proof.
  intros Hs Hall kept found resp.
  assert (∀ l : list campaign,
            Forall (fun c : campaign => is_Some (c !! "id")) l →
            delete_campaign campaign_id req s (set_campaigns l st)
            = (Return resp,
               (if (length (filter (fun c : campaign => c !! "id" ≠ Some (VStr campaign_id)) l)
                    <? length l)%nat
                then flash "Campaign deleted." s else flash "Campaign not found." s),
               set_campaigns
                 (filter (fun c : campaign => c !! "id" ≠ Some (VStr campaign_id)) l) st))
    as Hgen.
  { intros l Hl. unfold delete_campaign, require_login. rewrite Hs. cbn [negb].
    cbn [st_campaigns set_campaigns]. rewrite (drop_where_filter _ _ _ Hl).
    subst resp. by destruct (decide _). }
  assert (set_campaigns (st_campaigns st) st = st) as Hst by (by destruct st).
  split; [|split].
  - intros Hf. rewrite <- Hst at 1. rewrite (Hgen _ Hall). fold kept.
    apply Exists_exists in Hf as (c & Hin & Hc).
    pose proof (length_filter_lt
                  (fun c : campaign => c !! "id" ≠ Some (VStr campaign_id))
                  (st_campaigns st) c Hin) as Hlt.
    destruct (Nat.ltb_spec (length kept) (length (st_campaigns st))) as [_|Hge]; [done|].
    exfalso. subst kept. specialize (Hlt ltac:(by intros Hn)). lia.
  - intros Hnf.
    assert (kept = st_campaigns st) as Hk.
    { subst kept. apply filter_all. apply Forall_forall. intros c Hin Hc.
      apply Hnf, Exists_exists. by exists c. }
    split; [done|]. rewrite <- Hst at 1. rewrite (Hgen _ Hall). fold kept. rewrite Hk.
    by rewrite Nat.ltb_irrefl.
  - assert (Forall (fun c : campaign => is_Some (c !! "id")) kept) as Hkept.
    { subst kept. apply Forall_forall. intros c Hin.
      apply list_elem_of_filter in Hin as [_ Hin]. rewrite Forall_forall in Hall.
      by apply Hall. }
    rewrite (Hgen _ Hkept).
    assert (filter (fun c : campaign => c !! "id" ≠ Some (VStr campaign_id)) kept = kept)
      as ->.
    { apply filter_all. apply Forall_forall. intros c Hin.
      by apply list_elem_of_filter in Hin as [Hne _]. }
    by rewrite Nat.ltb_irrefl.
Qed.

Lemma launch_campaign_known req s st user rec :
  s_user s = Some user →
  st_customers st !! strip (default "" (r_form req !! "customer_id")) = Some rec →
  let customer_id := strip (default "" (r_form req !! "customer_id")) in
  let product := strip (default "" (r_form req !! "product")) in
  launch_campaign req s st
  = match chosen_product req st customer_id product with
    | Abort e => (Abort e, s, st)
    | Return product =>
        let m := fake_metrics (r_rand1 req) (r_rand2 req) (r_rand3 req) in
        let campaigns' :=
          st_campaigns st ++ [new_campaign req customer_id product m.1.1 m.1.2 m.2] in
        let trained := train_and_save (st_customers st) campaigns' (st_disk st) in
        match trained.1 with
        | Raise e =>
            (Abort (Propagated e), s, set_disk trained.2 (set_campaigns campaigns' st))
        | Ok result =>
            (if r_stdout req (trained_message result)
             then (Return (Redirect "dashboard" []),
                   flash ("Campaign launched for " +:+ customer_id) s)
             else (Abort UnicodeEncodeError, s),
             set_disk trained.2 (set_campaigns campaigns' st))
        end
    end.
Proof.
  intros Hs Hc customer_id product. unfold launch_campaign.
  rewrite Hs, Hc. subst product customer_id.
  destruct (chosen_product _ _ _ _) as [p|e]; [|done].
  destruct (fake_metrics _ _ _) as [[o k] n]. cbn [fst snd st_customers st_campaigns
    st_disk set_campaigns].
  destruct (train_and_save _ _ _) as [[r|e] d]; [|done].
  unfold print. cbn [fst snd]. by destruct (r_stdout req _).
Qed.



(** X22.  A logged-in launch with the product AI Recommended fails when the
    model file cannot be unpickled: the exception of [pickle.load] reaches
    the caller and nothing is recorded. *)
Theorem launch_campaign_ai_load_failure req s st user rec b e :
  s_user s = Some user →
  st_customers st !! strip (default "" (r_form req !! "customer_id")) = Some rec →
  strip (default "" (r_form req !! "product")) = "AI Recommended" →
  file (st_disk st) = Some b →
  pickle_loads b = Raise e →
  launch_campaign req s st = (Abort (Propagated e), s, st).
Proof.
  intros Hs Hc Hp Hd He.
  rewrite (launch_campaign_known req s st user rec Hs Hc). cbn zeta.
  unfold chosen_product. rewrite Hp, decide_True by done.
  unfold recommend. rewrite (load_model_present _ _ Hd), He. done.
Qed.


(** X24.  [signup] never changes an account that exists: the hash stored for
    a user is the same after any signup request. *)
Theorem signup_keeps_accounts req s st name hashed :
  st_users st !! name = Some hashed →
  st_users (signup req s st).2 !! name = Some hashed.
Proof.
  intros Hu. unfold signup. repeat case_match; cbn; try done.
  rewrite lookup_insert_ne; [done|]. congruence.
Qed.

(** X25.  When the password check accepts the hash that signup makes from the
    password and that hash is not empty, a signup with a new, non-empty user
    name followed by a login with the same user name and password, from any
    session, logs that user in. *)
Theorem signup_then_login req s st req' s' u password :
  check_password_hash (generate_password_hash (r_salt req) password) password = true →
  generate_password_hash (r_salt req) password ≠ "" →
  r_method req = "POST" → r_method req' = "POST" →
  r_form req !! "username" = Some u → r_form req !! "password" = Some password →
  r_form req' !! "username" = Some u → r_form req' !! "password" = Some password →
  strip u ≠ "" →
  st_users st !! strip u = None →
  let st1 := (signup req s st).2 in
  (signup req s st).1.1 = Return (Redirect "login" []) ∧
  login req' s' st1
  = (Return (Redirect "dashboard" []),
     flash "Logged in successfully!" {| s_user := Some (strip u); s_flashes := s_flashes s' |},
     st1).
Proof.
  intros Hcheck Hne Hm Hm' Hu Hp Hu' Hp' Hname Hfresh st1.
  assert (st1 = set_users (<[strip u := generate_password_hash (r_salt req) password]>
                             (st_users st)) st) as Hst1.
  { subst st1. unfold signup. rewrite decide_True, Hu, Hp by done.
    by rewrite decide_False, Hfresh by done. }
  split.
  - unfold signup. rewrite decide_True, Hu, Hp by done.
    by rewrite decide_False, Hfresh by done.
  - unfold login. rewrite decide_True, Hu', Hp' by done. rewrite Hst1.
    cbn [st_users set_users]. rewrite lookup_insert_eq.
    rewrite bool_decide_eq_false_2 by done. by rewrite Hcheck.
Qed.

(** X26.  [login] logs a user in only against a stored account: when the
    session's user after a login request is not the one before, the stripped
    user name of the form has a stored, non-empty hash that the password
    check accepts for the password of the form. *)
Theorem login_requires_account req s st name :
  s_user (login req s st).1.2 = Some name →
  s_user s = Some name ∨
  ∃ u password hashed,
    r_form req !! "username" = Some u ∧ name = strip u ∧
    r_form req !! "password" = Some password ∧
    st_users st !! name = Some hashed ∧ hashed ≠ "" ∧
    check_password_hash hashed password = true.
Proof.
  unfold login.
  destruct (decide (r_method req = "POST")); [|by left].
  destruct (r_form req !! "username") as [u|] eqn:Hu; [|by left].
  destruct (r_form req !! "password") as [password|] eqn:Hp; [|by left].
  destruct (st_users st !! strip u) as [hashed|] eqn:Hh; [|by left].
  destruct (bool_decide (hashed = "")) eqn:Hb; cbn [negb andb]; [by left|].
  destruct (check_password_hash hashed password) eqn:Hc; [|by left].
  cbn. intros [= <-]. right. exists u, password, hashed.
  apply bool_decide_eq_false in Hb. by repeat split.
Qed.

End app_properties.

(** ** Concrete runs on the executable instance *)

Section runs.
Import Reference.
Existing Instance sklearn.
Existing Instance pickle.

Example lower_upper_case : lower "ELECTRONICS" = "electronics".
Proof. reflexivity. Qed.

Example lower_mixed_case : lower "GaDgEtS" = "gadgets".
Proof. reflexivity. Qed.

Example lower_keeps_others : lower "@[`{ 09_z" = "@[`{ 09_z".
Proof. reflexivity. Qed.

Example trained_is_saved : (train_and_save customers6 mixed5 no_file).2 = trained.
Proof. vm_compute. reflexivity. Qed.

Example trained_pair :
  fit_transform (build_features (cust "computers") <$> mixed5)
  = Ok (vec5, dense vec5 <$> (build_features (cust "computers") <$> mixed5)) ∧
  clf_fit 500 (dense vec5 <$> (build_features (cust "computers") <$> mixed5))
    [VStr "Laptop"; VStr "Smartwatch"; VStr "Laptop"; VStr "Smartwatch"; VStr "Laptop"]
  = Ok clf5 ∧
  classes_ clf5 = [VStr "Laptop"; VStr "Smartwatch"].
Proof. repeat split; vm_compute; reflexivity. Qed.

(** An engagement value beyond the floats: the vectorizer raises, in training
    and in the recommendation. *)
Example huge_value_overflows :
  train_and_save customers6 (huge :: mixed5) no_file = (Raise OverflowError, no_file) ∧
  recommend customers6 (mixed5 ++ [huge]) (VStr "c2") trained = Raise OverflowError ∧
  recommend customers6 (mixed5 ++ [huge]) (VStr "c1") trained = Ok (VStr "Laptop").
Proof. repeat split; vm_compute; reflexivity. Qed.

(** A write that fails after 3 bytes: the model that was there is lost. *)
Example failing_write_truncates :
  load_model failing = Ok (Some (vec5, clf5)) ∧
  train_and_save customers6 mixed5 failing
  = (Raise OSError,
     {| file := Some (take 3 (pickle_dumps (vec5, clf5))); dev := WriteFails 3 |}) ∧
  load_model (train_and_save customers6 mixed5 failing).2 = Raise UnpicklingError.
Proof. repeat split; vm_compute; reflexivity. Qed.

Lemma build_training_data_total_witness :
  (Forall carries mixed5 ∧
   ∃ X y f, build_training_data customers6 mixed5 = Ok (X, y) ∧
     length X = 5%nat ∧ length y = 5%nat ∧
     X !! 1%nat = Some f ∧ y !! 1%nat = Some (VStr "Smartwatch") ∧
     dom f = ({[ "interest"; "open_rate"; "click_rate"; "conversions" ]} : gset string) ∧
     f !! "interest" = Some (VStr "computers") ∧
     f !! "open_rate" = Some (VInt 40) ∧
     f !! "click_rate" = Some (VInt 20) ∧
     f !! "conversions" = Some (VInt 2)) ∧
  (Exists (fun c => ¬ carries c) (mixed5 ++ [orphan]) ∧
   ∃ key, build_training_data customers6 (mixed5 ++ [orphan]) = Raise (KeyError key) ∧
          (key = "customer_id" ∨ key = "product")).
Proof.
  assert (H1 : Forall carries mixed5)
    by (apply (bool_decide_unpack _); vm_compute; exact I).
  assert (H2 : Exists (fun c => ¬ carries c) (mixed5 ++ [orphan])).
  { apply Exists_app. right. apply Exists_cons_hd.
    intros [[v Hv] _]. vm_compute in Hv. discriminate Hv. }
  split.
  - split; [exact H1|].
    destruct (proj1 (build_training_data_total customers6 mixed5) H1)
      as (X & y & HB & HX & Hy & Hl).
    destruct (Hl 1%nat (sent "c2" "Smartwatch" 40 20 2) eq_refl)
      as (cust_id & f & Hc & HXi & Hyi & _ & Hdom & Hi & Ho & Hk & Hn).
    assert (cust_id = VStr "c2") as -> by (vm_compute in Hc; congruence).
    exists X, y, f. split; [exact HB|]. split; [exact HX|]. split; [exact Hy|].
    split; [exact HXi|]. split; [exact Hyi|]. split; [exact Hdom|].
    split; [exact Hi|]. split; [exact Ho|]. split; [exact Hk|exact Hn].
  - split; [exact H2|].
    exact (proj2 (build_training_data_total customers6 (mixed5 ++ [orphan])) H2).
Defined.

Lemma feature_builder_four_keys_witness :
  let campaigns := [sent "c1" "Laptop" 50 10 1; sent "gone" "Smartwatch" 40 20 2] in
  Forall carries campaigns ∧
  customer_of customers6 (VStr "gone") = None ∧
  ∃ X y f p, build_training_data customers6 campaigns = Ok (X, y) ∧
    length X = length campaigns ∧
    X !! 1%nat = Some f ∧ y !! 1%nat = Some p ∧
    sent "gone" "Smartwatch" 40 20 2 !! "product" = Some p ∧
    dom f = feature_keys ∧ f !! "interest" = Some (VStr "unknown").
Proof.
  intros campaigns.
  assert (H1 : Forall carries campaigns)
    by (apply (bool_decide_unpack _); vm_compute; exact I).
  assert (H2 : customer_of customers6 (VStr "gone") = None) by (vm_compute; reflexivity).
  split; [exact H1|]. split; [exact H2|].
  apply (proj2 feature_builder_four_keys customers6 campaigns 1%nat
           (sent "gone" "Smartwatch" 40 20 2) (VStr "gone") H1).
  - reflexivity.
  - vm_compute. reflexivity.
  - exact H2.
Defined.

Lemma train_and_save_insufficient_witness :
  let X := build_features (cust "computers") <$> take 4 mixed5 in
  let y := [VStr "Laptop"; VStr "Smartwatch"; VStr "Laptop"; VStr "Smartwatch"] in
  build_training_data customers6 (take 4 mixed5) = Ok (X, y) ∧
  (length X < 5)%nat ∧
  train_and_save customers6 (take 4 mixed5) trained = (Ok None, trained).
Proof.
  intros X y.
  assert (HB : build_training_data customers6 (take 4 mixed5) = Ok (X, y))
    by (vm_compute; reflexivity).
  assert (Hlen : (length X < 5)%nat) by (vm_compute; lia).
  split; [exact HB|]. split; [exact Hlen|].
  exact (train_and_save_insufficient (SK := sklearn) (PK := pickle)
           customers6 (take 4 mixed5) trained X y HB Hlen).
Defined.

Lemma recommend_fallback_witness :
  file no_file = None ∧
  recommend (<["c7" := cust "MUSIC"]> customers6) mixed5 (VStr "c7") no_file
  = Ok (VStr "Bluetooth Speaker").
Proof.
  split; [reflexivity|].
  destruct (recommend_fallback (SK := sklearn) (PK := pickle)
              (<["c7" := cust "MUSIC"]> customers6) mixed5 (VStr "c7") no_file)
    as (p & Hp & _ & _ & _ & Hmusic & _).
  - reflexivity.
  - rewrite Hp, Hmusic; [reflexivity|]. vm_compute. reflexivity.
Defined.

Lemma recommend_fallback_interest_only_witness :
  let customers' : customers_t := <["x" := <["interest" := "computers"]> ∅]> ∅ in
  file no_file = None ∧ file locked = None ∧
  interest_of (customers_get customers6 (VStr "c1"))
  = interest_of (customers_get customers' (VStr "x")) ∧
  recommend customers6 mixed5 (VStr "c1") no_file
  = recommend customers' [orphan] (VStr "x") locked.
Proof.
  intros customers'.
  assert (Hi : interest_of (customers_get customers6 (VStr "c1"))
               = interest_of (customers_get customers' (VStr "x")))
    by (vm_compute; reflexivity).
  split; [reflexivity|]. split; [reflexivity|]. split; [exact Hi|].
  exact (recommend_fallback_interest_only (SK := sklearn) (PK := pickle)
           customers6 mixed5 (VStr "c1") no_file customers' [orphan] (VStr "x") locked
           eq_refl eq_refl Hi).
Defined.

Lemma recommend_load_failure_witness :
  file corrupt = Some [] ∧
  pickle_loads (Pickle := pickle) [] = Raise UnpicklingError ∧
  load_model corrupt = Raise UnpicklingError ∧
  recommend customers6 mixed5 (VStr "c1") corrupt = Raise UnpicklingError.
Proof.
  assert (He : pickle_loads (Pickle := pickle) [] = Raise UnpicklingError)
    by (vm_compute; reflexivity).
  split; [reflexivity|]. split; [exact He|].
  exact (recommend_load_failure (SK := sklearn) (PK := pickle)
           customers6 mixed5 (VStr "c1") corrupt [] UnpicklingError eq_refl He).
Defined.

Lemma recommend_with_model_witness :
  load_model trained = Ok (Some (vec5, clf5)) ∧
  Forall (fun c : campaign => is_Some (c !! "customer_id")) mixed5 ∧
  last_appended mixed5 (VStr "c1") 4 (sent "c1" "Laptop" 70 7 1) ∧
  recommend customers6 mixed5 (VStr "c1") trained
  = (transform_row vec5 (feature_dict "computers" (VInt 70) (VInt 7) (VInt 1))
     ≫= predict_row clf5) ∧
  recommend customers6 mixed5 (VStr "c1") trained = Ok (VStr "Laptop") ∧
  VStr "Laptop" ∈ classes_ clf5.
Proof.
  assert (H1 : load_model trained = Ok (Some (vec5, clf5))) by (vm_compute; reflexivity).
  assert (H2 : Forall (fun c : campaign => is_Some (c !! "customer_id")) mixed5)
    by (apply (bool_decide_unpack _); vm_compute; exact I).
  assert (H3 : last_appended mixed5 (VStr "c1") 4 (sent "c1" "Laptop" 70 7 1)).
  { split; [reflexivity|]. split; [vm_compute; reflexivity|].
    intros j c' Hj Hc'. apply lookup_lt_Some in Hc'. cbn in Hc'. lia. }
  split; [exact H1|]. split; [exact H2|]. split; [exact H3|].
  destruct (recommend_with_model (SK := sklearn) (PK := pickle)
              customers6 mixed5 (VStr "c1") trained vec5 clf5 H1 H2)
    as (feats & Hrec & _ & _ & Hlast & _ & _ & _ & Hin & _).
  rewrite (Hlast _ _ H3) in Hrec.
  assert (Hlaptop : recommend customers6 mixed5 (VStr "c1") trained = Ok (VStr "Laptop")).
  { rewrite Hrec. vm_compute. reflexivity. }
  split; [rewrite Hrec; reflexivity|]. split; [exact Hlaptop|]. exact (proj1 (Hin _ Hlaptop)).
Defined.

Lemma train_and_save_then_load_witness :
  (5 ≤ length mixed5)%nat ∧ Forall carries mixed5 ∧
  read_only no_file = false ∧
  ∃ d', train_and_save customers6 mixed5 no_file = (Ok (Some (vec5, clf5)), d') ∧
    file d' = Some (pickle_dumps (vec5, clf5)) ∧
    load_model d' = Ok (Some (vec5, clf5)) ∧
    recommend customers6 mixed5 (VStr "c6") d' = Ok (VStr "Laptop") ∧
    VStr "Laptop" ∈ classes_ clf5.
Proof.
  assert (H1 : (5 ≤ length mixed5)%nat) by (vm_compute; lia).
  assert (H2 : Forall carries mixed5)
    by (apply (bool_decide_unpack _); vm_compute; exact I).
  split; [exact H1|]. split; [exact H2|]. split; [reflexivity|].
  destruct (train_and_save_then_load (SK := sklearn) (PK := pickle)
              customers6 mixed5 no_file H1 H2) as (X & y & HB & H).
  assert (HX : build_training_data customers6 mixed5
               = Ok (build_features (cust "computers") <$> mixed5,
                     [VStr "Laptop"; VStr "Smartwatch"; VStr "Laptop"; VStr "Smartwatch";
                      VStr "Laptop"])) by (vm_compute; reflexivity).
  rewrite HX in HB. injection HB as <- <-.
  destruct (H vec5 (dense vec5 <$> (build_features (cust "computers") <$> mixed5)) clf5)
    as (d' & Htrain & Hfile & Hload & Hrec).
  - vm_compute. reflexivity.
  - vm_compute. reflexivity.
  - reflexivity.
  - vm_compute. reflexivity.
  - assert (Hcid : Forall (fun c : campaign => is_Some (c !! "customer_id")) mixed5)
      by (apply (bool_decide_unpack _); vm_compute; exact I).
    destruct (Hrec customers6 mixed5 (VStr "c6") Hcid) as [Heq Hin].
    assert (Hlaptop : recommend customers6 mixed5 (VStr "c6") d' = Ok (VStr "Laptop")).
    { rewrite Heq. vm_compute. reflexivity. }
    exists d'. split; [exact Htrain|]. split; [exact Hfile|]. split; [exact Hload|].
    split; [exact Hlaptop|]. exact (Hin _ Hlaptop).
Defined.

Lemma dump_model_in_place_witness :
  read_only trained = false ∧
  ∃ d', dump_model_interrupted 7 (vec1, clf1) trained = Ok d' ∧
    file d' = Some (take 7 (pickle_dumps (vec1, clf1))) ∧
    load_model d' = (pickle_loads (take 7 (pickle_dumps (vec1, clf1)))
                       ≫= fun m' => Ok (Some m')) ∧
    ((length (pickle_dumps (vec1, clf1)) ≤ 7)%nat →
     dump_model (vec1, clf1) trained = (Ok tt, d') ∧
     file d' = Some (pickle_dumps (vec1, clf1))).
Proof.
  split; [reflexivity|].
  apply (dump_model_in_place (SK := sklearn) (PK := pickle) (vec1, clf1) trained 7).
  reflexivity.
Defined.

(** C1 fails on the code.  [train_and_save] lets every exception through.
    Five well-formed campaigns that all have the product Laptop make the fit
    raise, since a label list with one class is rejected (scikit-learn's
    [LogisticRegression.fit] does so with [ValueError]); no model file is
    written.  Five well-formed campaigns with two products make the call raise
    [OSError] when the model file cannot be opened for writing. *)
Lemma train_and_save_raises_counterexample :
  ((5 ≤ length laptops5)%nat ∧ Forall carries laptops5 ∧
   train_and_save customers6 laptops5 no_file
   = (Raise (ValueError "This solver needs samples of at least 2 classes in the data"),
      no_file) ∧
   load_model no_file = Ok None) ∧
  ((5 ≤ length mixed5)%nat ∧ Forall carries mixed5 ∧
   train_and_save customers6 mixed5 locked = (Raise OSError, locked)).
Proof.
  split; (split; [vm_compute; lia|]);
    (split; [apply (bool_decide_unpack _); vm_compute; exact I|]).
  - split; vm_compute; reflexivity.
  - vm_compute. reflexivity.
Qed.

(** C4 fails on the code.  With an empty file at the model path, unpickling
    raises and [recommend] raises with it, where with no file at all it
    returns the product of the fallback table. *)
Lemma recommend_corrupt_counterexample :
  load_model corrupt = Raise UnpicklingError ∧
  recommend customers6 [] (VStr "c1") corrupt = Raise UnpicklingError ∧
  recommend customers6 [] (VStr "c1") no_file = Ok (VStr "Laptop").
Proof. repeat split; vm_compute; reflexivity. Qed.

(** C5 fails on the code.  When the model file cannot be opened for writing,
    [train_and_save] returns nothing: [OSError] is raised to the caller. *)
Lemma train_and_save_write_failure_counterexample :
  train_and_save customers6 mixed5 locked = (Raise OSError, locked) ∧
  ¬ ∃ outcome d',
      train_and_save (SK := sklearn) (PK := pickle) customers6 mixed5 locked
      = (Ok outcome, d').
Proof.
  assert (H : train_and_save customers6 mixed5 locked = (Raise OSError, locked))
    by (vm_compute; reflexivity).
  split; [exact H|]. intros (outcome & d' & H'). rewrite H in H'. discriminate H'.
Qed.

(** C6 fails on the code.  With a model loaded, a campaign record without
    [customer_id] anywhere in the list makes [recommend] raise [KeyError].
    With [customer_id] in every record, an engagement value beyond the floats
    in the customer's last campaign makes the transform, and [recommend] with
    it, raise [OverflowError]: no label is returned. *)
Lemma recommend_orphan_counterexample :
  load_model trained = Ok (Some (vec5, clf5)) ∧
  recommend customers6 (mixed5 ++ [orphan]) (VStr "c1") trained
  = Raise (KeyError "customer_id") ∧
  Forall (fun c : campaign => is_Some (c !! "customer_id")) (mixed5 ++ [huge]) ∧
  recommend customers6 (mixed5 ++ [huge]) (VStr "c2") trained = Raise OverflowError.
Proof.
  split; [vm_compute; reflexivity|]. split; [vm_compute; reflexivity|].
  split; [apply (bool_decide_unpack _); vm_compute; exact I|].
  vm_compute. reflexivity.
Qed.

(** C8 fails on the code.  A save stopped right after the model file is
    opened leaves an empty file: neither the model that was there, which
    loaded, nor the new one, and loading it raises. *)
Lemma dump_model_not_atomic_counterexample :
  load_model trained = Ok (Some (vec5, clf5)) ∧
  dump_model_interrupted 0 (vec1, clf1) trained = Ok corrupt ∧
  file corrupt ≠ file trained ∧
  file corrupt ≠ Some (pickle_dumps (vec1, clf1)) ∧
  load_model corrupt = Raise UnpicklingError.
Proof.
  split; [vm_compute; reflexivity|]. split; [vm_compute; reflexivity|].
  split; [intros H; vm_compute in H; discriminate H|].
  split; [intros H; vm_compute in H; discriminate H|].
  vm_compute. reflexivity.
Qed.

End runs.

(** ** Concrete runs of the further properties *)

Import Reference ReferenceWeb.

Lemma shop_recorded cid uuid product o k n :
  is_Some (st_customers shop !! cid) →
  (10 ≤ o ≤ 90)%Z → (1 ≤ k ≤ o)%Z → (0 ≤ n ≤ 10)%Z →
  recorded (st_customers shop) (new_campaign (post [] uuid 0 0 0) cid product o k n).
Proof.
  intros Hin Ho Hk Hn. unfold new_campaign. split; [|split; [|split; [|split]]].
  - exists cid. split; [by simplify_map_eq|done].
  - by simplify_map_eq.
  - eexists. by simplify_map_eq.
  - by simplify_map_eq.
  - exists o, k, n. repeat split; try lia; by simplify_map_eq.
Qed.

Lemma shop_ok : store_ok shop.
Proof.
  assert (is_Some (st_customers shop !! "c1")) as H1
    by (apply (bool_decide_unpack _); vm_compute; exact I).
  assert (is_Some (st_customers shop !! "c2")) as H2
    by (apply (bool_decide_unpack _); vm_compute; exact I).
  unfold store_ok. change (st_campaigns shop) with
    [new_campaign (post [] "u1" 0 0 0) "c1" (VStr "Laptop") 50 10 1;
     new_campaign (post [] "u2" 0 0 0) "c2" (VStr "Smartwatch") 40 20 2;
     new_campaign (post [] "u3" 0 0 0) "c1" (VStr "Laptop") 70 7 0].
  constructor; [|constructor; [|constructor; [|constructor]]];
    apply shop_recorded; (done || lia).
Qed.


Lemma build_training_data_first_error_witness :
  Forall carries (take 2 mixed5) ∧
  orphan !! "customer_id" = None ∧
  build_training_data customers6 (take 2 mixed5 ++ orphan :: drop 2 mixed5)
  = Raise (KeyError "customer_id").
Proof.
  assert (H1 : Forall carries (take 2 mixed5))
    by (apply (bool_decide_unpack _); vm_compute; exact I).
  assert (H2 : orphan !! "customer_id" = None) by (vm_compute; reflexivity).
  exact (conj H1 (conj H2
           (proj1 (build_training_data_first_error customers6 (take 2 mixed5) orphan
                     (drop 2 mixed5) H1) H2))).
Defined.

Lemma recommend_fallback_in_PRODUCTS_witness :
  file no_file = None ∧
  ∃ p, recommend (SK := sklearn) (PK := pickle) customers6 mixed5 (VStr "nobody") no_file
       = Ok (VStr p) ∧ p ∈ PRODUCTS.
Proof.
  exact (conj eq_refl
           (recommend_fallback_in_PRODUCTS (SK := sklearn) (PK := pickle)
              customers6 mixed5 (VStr "nobody") no_file eq_refl)).
Defined.

Lemma recommend_other_customer_witness :
  let c := sent "c2" "Smartwatch" 99 98 9 in
  c !! "customer_id" = Some (VStr "c2") ∧
  VStr "c2" ≠ VStr "c1" ∧
  recommend (SK := sklearn) (PK := pickle) customers6 (mixed5 ++ c :: []) (VStr "c1") trained
  = recommend (SK := sklearn) (PK := pickle) customers6 (mixed5 ++ []) (VStr "c1") trained.
Proof.
  intros c.
  assert (H1 : c !! "customer_id" = Some (VStr "c2")) by (vm_compute; reflexivity).
  assert (H2 : VStr "c2" ≠ VStr "c1") by discriminate.
  exact (conj H1 (conj H2
           (recommend_other_customer (SK := sklearn) (PK := pickle)
              customers6 mixed5 c [] (VStr "c1") (VStr "c2") trained H1 H2))).
Defined.

Lemma recommend_interest_only_witness :
  let customers' : customers_t := <["c1" := <["interest" := "computers"]> ∅]> ∅ in
  interest_of (customers_get customers6 (VStr "c1"))
  = interest_of (customers_get customers' (VStr "c1")) ∧
  recommend (SK := sklearn) (PK := pickle) customers6 mixed5 (VStr "c1") trained
  = recommend (SK := sklearn) (PK := pickle) customers' mixed5 (VStr "c1") trained.
Proof.
  intros customers'.
  assert (Hi : interest_of (customers_get customers6 (VStr "c1"))
               = interest_of (customers_get customers' (VStr "c1")))
    by (vm_compute; reflexivity).
  exact (conj Hi
           (recommend_interest_only (SK := sklearn) (PK := pickle)
              customers6 customers' mixed5 (VStr "c1") trained Hi)).
Defined.

Lemma train_and_save_from_scratch_witness :
  let train := train_and_save (SK := sklearn) (PK := pickle) customers6 mixed5 in
  read_only corrupt = read_only trained ∧
  (train corrupt).1 = (train trained).1 ∧
  ∀ m, (train corrupt).1 = Ok (Some m) →
       (train corrupt).2 = (train trained).2 ∧
       file (train corrupt).2 = Some (pickle_dumps (Pickle := pickle) m).
Proof.
  exact (conj eq_refl
           (train_and_save_from_scratch (SK := sklearn) (PK := pickle)
              customers6 mixed5 corrupt trained eq_refl)).
Defined.

Lemma train_and_save_threshold_witness :
  Forall carries (take 4 mixed5) ∧
  ((train_and_save (SK := sklearn) (PK := pickle) customers6 (take 4 mixed5) no_file).1
   = Ok None
   ↔ (length (take 4 mixed5) < 5)%nat).
Proof.
  assert (H1 : Forall carries (take 4 mixed5))
    by (apply (bool_decide_unpack _); vm_compute; exact I).
  exact (conj H1
           (train_and_save_threshold (SK := sklearn) (PK := pickle)
              customers6 (take 4 mixed5) no_file H1)).
Defined.

Lemma compute_stats_permutation_witness :
  st_campaigns shop ≡ₚ reverse (st_campaigns shop) ∧
  compute_stats (st_campaigns shop) = compute_stats (reverse (st_campaigns shop)).
Proof.
  assert (H1 : st_campaigns shop ≡ₚ reverse (st_campaigns shop))
    by (symmetry; apply reverse_Permutation).
  exact (conj H1 (compute_stats_permutation _ _ H1)).
Defined.

Lemma compute_stats_in_range_witness :
  Forall metrics_in_range (st_campaigns shop) ∧
  ∃ sent open_sum click_sum total_conv,
    compute_stats (st_campaigns shop)
    = Return (3%nat, sent, average_of open_sum 3, average_of click_sum 3, total_conv) ∧
    (sent ≤ 3)%nat ∧
    (10 * 3 ≤ open_sum ≤ 90 * 3)%Z ∧
    (3 ≤ click_sum ≤ open_sum)%Z ∧
    (0 ≤ total_conv ≤ 10 * 3)%Z.
Proof.
  assert (H1 : Forall metrics_in_range (st_campaigns shop))
    by exact (recorded_in_range _ _ shop_ok).
  exact (conj H1 (compute_stats_in_range (st_campaigns shop) H1)).
Defined.

Lemma protected_routes_require_login_witness :
  protected RLaunchCampaign ∧
  s_user anonymous = None ∧
  ∃ msg, handle (RT := runtime) (SK := sklearn) (PK := pickle)
           RLaunchCampaign (launch_form "c1" "Laptop") anonymous shop
         = (Return (Redirect "login" []), flash msg anonymous, shop).
Proof.
  exact (conj I (conj eq_refl
           (protected_routes_require_login (RT := runtime) (SK := sklearn) (PK := pickle)
              RLaunchCampaign (launch_form "c1" "Laptop") anonymous shop I eq_refl))).
Defined.

Lemma routes_preserve_store_ok_witness :
  store_ok shop ∧
  store_ok (handle (RT := runtime) (SK := sklearn) (PK := pickle)
              (RDeleteCustomer "c1") (post [] "u9" 0 0 0) alice shop).2.
Proof.
  exact (conj shop_ok
           (routes_preserve_store_ok (RT := runtime) (SK := sklearn) (PK := pickle)
              (RDeleteCustomer "c1") (post [] "u9" 0 0 0) alice shop shop_ok)).
Defined.

Lemma customers_page_post_always_stores_witness :
  let req := post [("customer_id", " c1 "); ("name", ""); ("interest", "books")] "u9" 0 0 0 in
  s_user alice = Some "alice" ∧
  r_method req = "POST" ∧
  strip (Runtime := runtime) (default "" (r_form req !! "customer_id")) = "c1" ∧
  is_Some (st_customers shop !! "c1") ∧
  (customers_page (RT := runtime) req alice shop).1.2
  = flash (if decide (strip (Runtime := runtime) (default "" (r_form req !! "customer_id")) = "")
           then "Customer ID is required." else "Customer already exists.") alice ∧
  ∃ record,
    st_customers (customers_page (RT := runtime) req alice shop).2
      !! strip (Runtime := runtime) (default "" (r_form req !! "customer_id")) = Some record ∧
    record !! "interest" = Some (strip (Runtime := runtime) (default "" (r_form req !! "interest"))).
Proof.
  intros req.
  destruct (customers_page_post_always_stores (RT := runtime) req alice shop "alice"
              eq_refl eq_refl) as (Heq & Hlk & Hi).
  split; [reflexivity|]. split; [reflexivity|]. split; [vm_compute; reflexivity|].
  split; [apply (bool_decide_unpack _); vm_compute; exact I|].
  split; [by rewrite Heq|]. eexists. split; [exact Hlk|exact Hi].
Defined.

Lemma delete_customer_removes_witness :
  s_user alice = Some "alice" ∧
  Forall (fun c : campaign => is_Some (c !! "customer_id")) (st_campaigns shop) ∧
  ∃ st', delete_customer "c1" (post [] "u9" 0 0 0) alice shop
         = (Return (Redirect "customers_page" []),
            flash ("Deleted customer " +:+ "c1" +:+ " and related campaigns.") alice, st') ∧
    st_customers st' = delete "c1" (st_customers shop) ∧
    (∀ c, c ∈ st_campaigns st' → ¬ matches (VStr "c1") c) ∧
    customer_of (st_customers st') (VStr "c1") = None.
Proof.
  assert (H1 : Forall (fun c : campaign => is_Some (c !! "customer_id")) (st_campaigns shop))
    by exact (recorded_has_customer_id _ _ shop_ok).
  split; [reflexivity|]. split; [exact H1|].
  destruct (proj1 (delete_customer_removes "c1" (post [] "u9" 0 0 0)
                     alice shop "alice" eq_refl) H1)
    as (st' & Heq & Hcust & _ & _ & _ & Hno & Hnone).
  exists st'. split; [exact Heq|]. split; [exact Hcust|]. split; [exact Hno|exact Hnone].
Defined.

Lemma delete_campaign_reports_witness :
  let req := post [("next", "analytics"); ("q", "lap")] "u9" 0 0 0 in
  s_user alice = Some "alice" ∧
  Forall (fun c : campaign => is_Some (c !! "id")) (st_campaigns shop) ∧
  Exists (fun c : campaign => c !! "id" = Some (VStr "u2")) (st_campaigns shop) ∧
  default "dashboard" (r_form req !! "next") = "analytics" ∧
  (delete_campaign "u2" req alice shop).1.2 = flash "Campaign deleted." alice ∧
  st_campaigns (delete_campaign "u2" req alice shop).2
  = filter (fun c : campaign => c !! "id" ≠ Some (VStr "u2")) (st_campaigns shop).
Proof.
  intros req.
  assert (H1 : Forall (fun c : campaign => is_Some (c !! "id")) (st_campaigns shop))
    by exact (recorded_has_id _ _ shop_ok).
  assert (H2 : Exists (fun c : campaign => c !! "id" = Some (VStr "u2")) (st_campaigns shop)).
  { apply Exists_cons_tl, Exists_cons_hd. vm_compute. reflexivity. }
  split; [reflexivity|]. split; [exact H1|]. split; [exact H2|].
  split; [vm_compute; reflexivity|].
  destruct (delete_campaign_reports "u2" req alice shop "alice" eq_refl H1)
    as (Hfound & _ & _).
  by rewrite (Hfound H2).
Defined.


(** The same launch served with a standard output in ASCII: the campaign is
    recorded, and the request fails on the line printed after the training. *)
Example launch_campaign_on_ascii_stdout :
  let req := on_ascii_stdout (launch_form "c2" "Laptop") in
  (launch_campaign (RT := runtime) (SK := sklearn) (PK := pickle) req alice shop).1
  = (Abort UnicodeEncodeError, alice) ∧
  length (st_campaigns (launch_campaign (RT := runtime) (SK := sklearn) (PK := pickle)
                          req alice shop).2) = 4%nat.
Proof. split; vm_compute; reflexivity. Qed.

(** Statistics over a campaign with an engagement value beyond the floats. *)
Example compute_stats_overflow :
  compute_stats [huge] = Abort (Propagated OverflowError).
Proof. vm_compute. reflexivity. Qed.


Lemma launch_campaign_ai_load_failure_witness :
  let req := launch_form "c1" "AI Recommended" in
  let ann : customer := <["name" := "Ann"]> (<["interest" := "Music"]> ∅) in
  let broken := set_disk corrupt shop in
  s_user alice = Some "alice" ∧
  st_customers broken !! strip (Runtime := runtime) (default "" (r_form req !! "customer_id"))
  = Some ann ∧
  strip (Runtime := runtime) (default "" (r_form req !! "product")) = "AI Recommended" ∧
  file (st_disk broken) = Some [] ∧
  pickle_loads (Pickle := pickle) [] = Raise UnpicklingError ∧
  launch_campaign (RT := runtime) (SK := sklearn) (PK := pickle) req alice broken
  = (Abort (Propagated UnpicklingError), alice, broken).
Proof.
  intros req ann broken.
  assert (H1 : st_customers broken
                 !! strip (Runtime := runtime) (default "" (r_form req !! "customer_id"))
               = Some ann) by (vm_compute; reflexivity).
  assert (H2 : strip (Runtime := runtime) (default "" (r_form req !! "product")) = "AI Recommended")
    by (vm_compute; reflexivity).
  assert (H3 : pickle_loads (Pickle := pickle) [] = Raise UnpicklingError)
    by (vm_compute; reflexivity).
  split; [reflexivity|]. split; [exact H1|]. split; [exact H2|]. split; [reflexivity|].
  split; [exact H3|].
  exact (launch_campaign_ai_load_failure (RT := runtime) (SK := sklearn) (PK := pickle)
           req alice broken "alice" ann [] UnpicklingError eq_refl H1 H2 eq_refl H3).
Defined.


Lemma signup_keeps_accounts_witness :
  let req := post [("username", "alice"); ("password", "other")] "u9" 0 0 0 in
  st_users shop !! "alice" = Some (hash_of "s1" "secret") ∧
  st_users (signup (RT := runtime) req anonymous shop).2 !! "alice"
  = Some (hash_of "s1" "secret").
Proof.
  intros req.
  assert (H1 : st_users shop !! "alice" = Some (hash_of "s1" "secret"))
    by (vm_compute; reflexivity).
  exact (conj H1
           (signup_keeps_accounts (RT := runtime) req anonymous shop "alice" _ H1)).
Defined.

Lemma signup_then_login_witness :
  let req := post [("username", " bob "); ("password", "pw")] "u9" 0 0 0 in
  check_password_hash (Runtime := runtime)
    (generate_password_hash (Runtime := runtime) (r_salt req) "pw") "pw" = true ∧
  generate_password_hash (Runtime := runtime) (r_salt req) "pw" ≠ "" ∧
  strip (Runtime := runtime) " bob " = "bob" ∧
  strip (Runtime := runtime) " bob " ≠ "" ∧
  st_users shop !! strip (Runtime := runtime) " bob " = None ∧
  (signup (RT := runtime) req anonymous shop).1.1 = Return (Redirect "login" []) ∧
  login (RT := runtime) req alice (signup (RT := runtime) req anonymous shop).2
  = (Return (Redirect "dashboard" []),
     flash "Logged in successfully!"
       {| s_user := Some (strip (Runtime := runtime) " bob "); s_flashes := s_flashes alice |},
     (signup (RT := runtime) req anonymous shop).2).
Proof.
  intros req.
  assert (H1 : check_password_hash (Runtime := runtime)
                 (generate_password_hash (Runtime := runtime) (r_salt req) "pw") "pw" = true)
    by (vm_compute; reflexivity).
  assert (H2 : generate_password_hash (Runtime := runtime) (r_salt req) "pw" ≠ "")
    by (vm_compute; discriminate).
  assert (H3 : strip (Runtime := runtime) " bob " ≠ "") by (vm_compute; discriminate).
  assert (H4 : st_users shop !! strip (Runtime := runtime) " bob " = None)
    by (vm_compute; reflexivity).
  split; [exact H1|]. split; [exact H2|]. split; [vm_compute; reflexivity|].
  split; [exact H3|]. split; [exact H4|].
  exact (signup_then_login (RT := runtime) req anonymous shop req alice " bob " "pw"
           H1 H2 eq_refl eq_refl eq_refl eq_refl eq_refl eq_refl H3 H4).
Defined.

Lemma login_requires_account_witness :
  let req := post [("username", "alice"); ("password", "secret")] "u9" 0 0 0 in
  s_user (login (RT := runtime) req anonymous shop).1.2 = Some "alice" ∧
  (s_user anonymous = Some "alice" ∨
   ∃ u password hashed,
     r_form req !! "username" = Some u ∧ "alice" = strip (Runtime := runtime) u ∧
     r_form req !! "password" = Some password ∧
     st_users shop !! "alice" = Some hashed ∧ hashed ≠ "" ∧
     check_password_hash (Runtime := runtime) hashed password = true).
Proof.
  intros req.
  assert (H1 : s_user (login (RT := runtime) req anonymous shop).1.2 = Some "alice")
    by (vm_compute; reflexivity).
  exact (conj H1 (login_requires_account (RT := runtime) req anonymous shop "alice" H1)).
Defined.
